(** * tableauViz: the Lightning web component that embeds a Tableau view

    A shallow embedding of
    [force-app/main/default/lwc/tableauViz/tableauViz.js].

    The component's fields live in a record, the browser and the
    Lightning runtime in a second one ([Host]); every method of the
    class becomes a function that passes those records along.  The
    platform pieces the class calls but does not define ([new URL],
    [reduceErrors]) are the methods of the [Platform] class. *)

From Stdlib Require Import ZArith QArith Qround String Ascii List Bool Lia.
From Stdlib Require Import DecimalString.
Import ListNotations.

Local Open Scope string_scope.
Local Open Scope Z_scope.

(* ================================================================= *)
(** ** JavaScript values *)

(** The primitive values that reach the component through its public
    properties and through the record wire.  Numbers are the integers
    that print in plain decimal digits (a pixel height, an
    [offsetWidth], a numeric field; [Number 0] stands for both zeros)
    and NaN.  Strings are well-formed text, held as UTF-8 bytes: the
    patterns the component searches for are ASCII, and the URL
    serializer works on UTF-8 bytes anyway. *)
Module JS.

Inductive value : Type :=
| Undefined
| Null
| Bool (b : bool)
| Number (z : Z)
| NaN
| Str (s : string).

(** ToBoolean *)
Definition truthy (v : value) : bool :=
  match v with
  | Undefined | Null | NaN => false
  | Bool b => b
  | Number z => negb (z =? 0)
  | Str s => negb (s =? "")%string
  end.

Definition string_of_Z (z : Z) : string :=
  NilZero.string_of_int (Z.to_int z).

(** ToString, as template literals and WebIDL string arguments apply it *)
Definition toString (v : value) : string :=
  match v with
  | Undefined => "undefined"
  | Null => "null"
  | Bool true => "true"
  | Bool false => "false"
  | Number z => string_of_Z z
  | NaN => "NaN"
  | Str s => s
  end.

(** [a === b] *)
Definition strict_equal (a b : value) : bool :=
  match a, b with
  | Undefined, Undefined => true
  | Null, Null => true
  | Bool x, Bool y => Bool.eqb x y
  | Number x, Number y => x =? y
  | Str x, Str y => (x =? y)%string
  | _, _ => false
  end.

(** An [Error] object, as far as the component looks at it. *)
Record error : Type := Error { message : string }.

(** The outcome of an expression that can throw. *)
Inductive completion (A : Type) : Type :=
| Normal (a : A)
| Throw (e : error).
Arguments Normal {A} a.
Arguments Throw {A} e.

End JS.

(* ================================================================= *)
(** ** Strings and the three regular expressions *)

Module Text.

Fixpoint drop (n : nat) (s : string) : string :=
  match n, s with
  | O, _ => s
  | S n', String _ s' => drop n' s'
  | S _, EmptyString => EmptyString
  end.

(** [s.startsWith(p)] *)
Definition startsWith (s p : string) : bool := String.prefix p s.

(** [s.replace(pat, rep)] for a string pattern: the leftmost
    occurrence only. *)
Fixpoint replace (pat rep s : string) : string :=
  if String.prefix pat s then rep ++ drop (String.length pat) s
  else match s with
       | EmptyString => EmptyString
       | String c s' => String c (replace pat rep s')
       end.

(** An unanchored regular expression tries its pattern at every
    start index, left to right; [p] is the pattern matched at the
    head of its argument. *)
Fixpoint search {A : Type} (p : string -> option A) (s : string) : option A :=
  match p s with
  | Some a => Some a
  | None => match s with
            | EmptyString => None
            | String _ s' => search p s'
            end
  end.

Fixpoint takeWhile (f : ascii -> bool) (s : string) : string :=
  match s with
  | EmptyString => EmptyString
  | String c s' => if f c then String c (takeWhile f s') else EmptyString
  end.

Definition between (lo hi c : ascii) : bool :=
  ((nat_of_ascii lo <=? nat_of_ascii c) && (nat_of_ascii c <=? nat_of_ascii hi))%nat.

(** [\w] *)
Definition word_char (c : ascii) : bool :=
  between "a" "z" c || between "A" "Z" c || between "0" "9" c
  || Ascii.eqb c "_".

(** [[\w|-]] *)
Definition uid_char (c : ascii) : bool :=
  word_char c || Ascii.eqb c "|" || Ascii.eqb c "-".

(** A pattern that is one literal string. *)
Definition literal_at (lit t : string) : option unit :=
  if String.prefix lit t then Some tt else None.

(** [s.includes(lit)] *)
Definition includes (lit s : string) : bool :=
  match search (literal_at lit) s with
  | Some _ => true
  | None => false
  end.

(** [/SalesforceMobileSDK/g.test(s)] on a fresh regex object *)
Definition mobileRegex_test (s : string) : bool :=
  match search (literal_at "SalesforceMobileSDK") s with
  | Some _ => true
  | None => false
  end.

(** [/uid_([\w|-]+)/g.exec(s)], reduced to capture group 1 *)
Definition deviceIdRegex_at (t : string) : option string :=
  if String.prefix "uid_" t then
    match takeWhile uid_char (drop 4 t) with
    | EmptyString => None
    | run => Some run
    end
  else None.

Definition deviceIdRegex_exec (s : string) : option string :=
  search deviceIdRegex_at s.

(** [/(iPhone|Android|iPad)/g.exec(s)], reduced to capture group 1 *)
Definition deviceNameRegex_at (t : string) : option string :=
  if String.prefix "iPhone" t then Some "iPhone"
  else if String.prefix "Android" t then Some "Android"
  else if String.prefix "iPad" t then Some "iPad"
  else None.

Definition deviceNameRegex_exec (s : string) : option string :=
  search deviceNameRegex_at s.

End Text.

(* ================================================================= *)
(** ** URL objects *)

(** A parsed URL, as the component uses one: the [protocol] and
    [origin] getters, [toString()] and [searchParams.append].  [locator]
    is the serialization up to and including the path.  The query is
    kept twice, as the URL standard does: the string that [toString]
    prints and the name/value list behind [searchParams]; [append]
    rewrites the first from the second. *)
Module Url.

Record t : Type := Make {
  protocol : string;
  origin : string;
  locator : string;
  query : option string;
  fragment : option string;
  searchParams : list (string * string)
}.

Definition hex_upper (n : N) : ascii :=
  (if n <? 10 then ascii_of_N (48 + n) else ascii_of_N (55 + n))%N.

(** application/x-www-form-urlencoded byte serializer *)
Definition encode_byte (c : ascii) : string :=
  if Ascii.eqb c " " then "+"
  else if Text.word_char c || Ascii.eqb c "*" || Ascii.eqb c "-"
          || Ascii.eqb c "."
  then String c EmptyString
  else let n := N_of_ascii c in
       String "%" (String (hex_upper (n / 16)) (String (hex_upper (n mod 16)) EmptyString)).

Fixpoint encode (s : string) : string :=
  match s with
  | EmptyString => EmptyString
  | String c s' => encode_byte c ++ encode s'
  end.

Definition encode_pair (p : string * string) : string :=
  encode (fst p) ++ "=" ++ encode (snd p).

(** application/x-www-form-urlencoded serializer *)
Definition urlencoded (l : list (string * string)) : string :=
  String.concat "&" (map encode_pair l).

(** [u.searchParams.append(name, value)]; both arguments have gone
    through ToString already. *)
Definition append (name value : string) (u : t) : t :=
  let l := (searchParams u ++ [(name, value)])%list in
  let q := urlencoded l in
  {| protocol := protocol u;
     origin := origin u;
     locator := locator u;
     query := if (q =? "")%string then None else Some q;
     fragment := fragment u;
     searchParams := l |}.

(** [u.toString()] *)
Definition toString (u : t) : string :=
  locator u
  ++ match query u with Some q => "?" ++ q | None => "" end
  ++ match fragment u with Some f => "#" ++ f | None => "" end.

End Url.

(* ================================================================= *)
(** ** The component and its host *)

(** The nine [@api] properties. *)
Record Config : Type := {
  objectApiName : JS.value;
  recordId : JS.value;
  vizUrl : JS.value;
  showTabs : JS.value;
  showToolbar : JS.value;
  filterOnRecordId : JS.value;
  height : JS.value;
  tabAdvancedFilter : JS.value;
  sfAdvancedFilter : JS.value
}.

Definition VizHandle : Type := nat.
Definition MessageContext : Type := nat.

(** The instance: its configuration, its private fields and the wired
    [messageContext]. *)
Record Component : Type := {
  api : Config;
  viz : option VizHandle;
  advancedFilterValue : JS.value;
  errorMessage : JS.value;
  isLibLoaded : bool;
  messageContext : option MessageContext
}.

Definition set_errorMessage (m : string) (c : Component) : Component :=
  {| api := api c; viz := viz c;
     advancedFilterValue := advancedFilterValue c;
     errorMessage := JS.Str m;
     isLibLoaded := isLibLoaded c; messageContext := messageContext c |}.

Definition set_advancedFilterValue (v : JS.value) (c : Component) : Component :=
  {| api := api c; viz := viz c;
     advancedFilterValue := v;
     errorMessage := errorMessage c;
     isLibLoaded := isLibLoaded c; messageContext := messageContext c |}.

Definition set_isLibLoaded (b : bool) (c : Component) : Component :=
  {| api := api c; viz := viz c;
     advancedFilterValue := advancedFilterValue c;
     errorMessage := errorMessage c;
     isLibLoaded := b; messageContext := messageContext c |}.

Definition set_viz (h : VizHandle) (c : Component) : Component :=
  {| api := api c; viz := Some h;
     advancedFilterValue := advancedFilterValue c;
     errorMessage := errorMessage c;
     isLibLoaded := isLibLoaded c; messageContext := messageContext c |}.

(** [div.tabVizPlaceholder]: the last string handed to its
    [style.height] setter, and its [offsetWidth]. *)
Record Container : Type := {
  style_height : string;
  offsetWidth : Z
}.

Module VizOptions.
Record t : Type := Make {
  hideTabs : bool;
  hideToolbar : bool;
  height : string;
  width : string
}.
End VizOptions.

(** One evaluation of [new tableau.Viz(containerDiv, url, options)]. *)
Record VizCall : Type := {
  call_container : Container;
  call_url : string;
  call_options : VizOptions.t
}.

Inductive TableauEventName : Type := MARKS_SELECTION.
Inductive Channel : Type := TABLEAU_VIZ_SELECTED_CHANNEL.

Record Payload : Type := { selectedTarget : string }.

Inductive LogArg : Type :=
| LogText (s : string)
| LogJSON (s : string)          (* JSON.stringify of a string *)
| LogError (e : JS.error).

(** What the component does to the outside, in order. *)
Inductive Effect : Type :=
| ConsoleLog (x : LogArg)
| LoadScript
| AddEventListener (v : VizHandle) (name : TableauEventName)
| DispatchEvent (type : string) (detail : string)
| Publish (ctx : option MessageContext) (ch : Channel) (p : Payload).

(** [Math.random()] and [crypto.getRandomValues]: the values they are
    going to return, and how many each has returned so far. *)
Record Entropy : Type := {
  Math_random : nat -> Q;
  Math_random_calls : nat;
  crypto_byte : nat -> Z;
  crypto_calls : nat
}.

(** The browser and the Lightning runtime around the instance. *)
Record Host : Type := {
  placeholder : option Container;  (* template.querySelector('div.tabVizPlaceholder') *)
  userAgent : string;              (* window.navigator.userAgent *)
  entropy : Entropy;
  isConnected : bool;              (* the element is still in the document *)
  publish_throws : option JS.error; (* what [publish] throws, if it does *)
  vizCalls : list VizCall;          (* the evaluations of [new tableau.Viz] *)
  trace : list Effect
}.

Record St : Type := { this : Component; host : Host }.

Definition with_this (c : Component) (st : St) : St :=
  {| this := c; host := host st |}.

Definition emit (e : Effect) (h : Host) : Host :=
  {| placeholder := placeholder h; userAgent := userAgent h;
     entropy := entropy h; isConnected := isConnected h;
     publish_throws := publish_throws h; vizCalls := vizCalls h;
     trace := trace h ++ [e] |}.

Definition set_isConnected (b : bool) (h : Host) : Host :=
  {| placeholder := placeholder h; userAgent := userAgent h;
     entropy := entropy h; isConnected := b;
     publish_throws := publish_throws h; vizCalls := vizCalls h;
     trace := trace h |}.

(** A native selection event: [getViz()] and
    [getWorksheet().getName()]. *)
Record MarksEvent : Type := {
  getViz : VizHandle;
  worksheetName : string
}.

(* ================================================================= *)
(** ** What the platform supplies *)

(** An error object delivered by the record wire. *)
Inductive WireError : Type := MkWireError (details : list string).

(** The functions the class calls and does not define. *)
Class Platform : Type := {
  (** [new URL(s)]: the parsed URL, or the [TypeError] it throws *)
  URL_new : string -> JS.completion Url.t;
  (** [new tableau.Viz(containerDiv, url, options)] after the
      evaluations in [before]: the handle of the new viz, or what the
      library throws *)
  tableau_Viz : forall (before : list VizCall) (now : VizCall),
      JS.completion VizHandle;
  (** the record objects of [lightning/uiRecordApi] and its
      [getFieldValue(record, field)] *)
  RecordData : Type;
  getFieldValue : RecordData -> JS.value -> JS.value;
  (** [reduceErrors] of [./errorUtils.js]: the messages of an error *)
  reduceErrors : WireError -> list string
}.

(* ================================================================= *)
(** ** The methods of [TableauViz] *)

Definition https_message : string :=
  "Invalid URL. Make sure the link to the Tableau view is using HTTPS.".

Definition hash_message : string :=
  "Invalid URL. Enter the link for a Tableau view. Click Copy Link to copy the URL from the Share View dialog box in Tableau. The link for the Tableau view must not include a '#' after the name of the server.".

Definition filter_pair_message : string :=
  "Advanced filtering requires that you select both Tableau and Salesforce fields. The fields should represent corresponding data, for example, user or account identifiers.".

(** The body of the [try] block of [validateInputs]. *)
Definition validate_url `{Platform} (c : Component) : JS.completion unit :=
  match URL_new (JS.toString (vizUrl (api c))) with
  | JS.Throw e => JS.Throw e
  | JS.Normal u =>
      if negb (Url.protocol u =? "https:")%string then
        JS.Throw (JS.Error https_message)
      else if Text.startsWith
                (Text.replace (Url.origin u) "" (Url.toString u)) "/#/" then
        JS.Throw (JS.Error hash_message)
      else JS.Normal tt
  end.

Definition validateInputs `{Platform} (c : Component) : bool * Component :=
  match validate_url c with
  | JS.Throw error =>
      (false,
       set_errorMessage
         (if JS.truthy (JS.Str (JS.message error)) then JS.message error
          else "Invalid URL") c)
  | JS.Normal _ =>
      let sf := JS.truthy (sfAdvancedFilter (api c)) in
      let tab := JS.truthy (tabAdvancedFilter (api c)) in
      if (sf && negb tab) || (negb sf && tab) then
        (false, set_errorMessage filter_pair_message c)
      else (true, c)
  end.

(** The [TypeError] for [containerDiv.style] on [null], in V8's words. *)
Definition null_container_error : JS.error :=
  JS.Error "Cannot read properties of null (reading 'style')".

Definition setVizDimensions (c : Component) (vizToLoad : Url.t)
    (containerDiv : option Container) : JS.completion (Url.t * Container) :=
  match containerDiv with
  | None => JS.Throw null_container_error
  | Some div =>
      let div' := {| style_height := JS.toString (height (api c)) ++ "px";
                     offsetWidth := offsetWidth div |} in
      let vizWidth := offsetWidth div' in
      JS.Normal
        (Url.append ":size"
           (JS.string_of_Z vizWidth ++ "," ++ JS.toString (height (api c)))
           vizToLoad,
         div')
  end.

Definition setVizFilters (c : Component) (vizToLoad : Url.t) : Url.t :=
  (* In context filtering *)
  let vizToLoad :=
    if JS.strict_equal (filterOnRecordId (api c)) (JS.Bool true)
       && JS.truthy (objectApiName (api c))
    then
      let filterNameTab := JS.toString (objectApiName (api c)) ++ " ID" in
      Url.append filterNameTab (JS.toString (recordId (api c))) vizToLoad
    else vizToLoad in
  (* Additional Filtering *)
  if JS.truthy (tabAdvancedFilter (api c))
     && JS.truthy (advancedFilterValue c)
  then
    Url.append (JS.toString (tabAdvancedFilter (api c)))
      (JS.toString (advancedFilterValue c)) vizToLoad
  else vizToLoad.

(** *** Random device ids *)

Definition next_Math_random (e : Entropy) : Q * Entropy :=
  (Math_random e (Math_random_calls e),
   {| Math_random := Math_random e;
      Math_random_calls := S (Math_random_calls e);
      crypto_byte := crypto_byte e;
      crypto_calls := crypto_calls e |}).

(** [array = new Uint8Array(1); crypto.getRandomValues(array); array[0]] *)
Definition next_Uint8 (e : Entropy) : Z * Entropy :=
  (crypto_byte e (crypto_calls e) mod 256,
   {| Math_random := Math_random e;
      Math_random_calls := Math_random_calls e;
      crypto_byte := crypto_byte e;
      crypto_calls := S (crypto_calls e) |}).

(** [array[k]] for a number [k] that is an integer *)
Definition array_get (array : list string) (k : Z) : JS.value :=
  if k <? 0 then JS.Undefined
  else match nth_error array (Z.to_nat k) with
       | Some s => JS.Str s
       | None => JS.Undefined
       end.

Definition hex_lower (n : Z) : ascii :=
  if n <? 10 then ascii_of_N (Z.to_N (48 + n)) else ascii_of_N (Z.to_N (87 + n)).

(** [n.toString(16)] for a non-negative integer [n], most significant
    digit first; [digits] bounds the number of digits. *)
Fixpoint toString16_aux (digits : nat) (n : Z) (acc : string) : string :=
  match digits with
  | O => acc
  | S d =>
      let acc' := String (hex_lower (n mod 16)) acc in
      if n / 16 =? 0 then acc' else toString16_aux d (n / 16) acc'
  end.

Definition toString16 (n : Z) : string :=
  toString16_aux (S (Z.to_nat (Z.log2 n))) n "".

Definition getRandomSymbol (symbol : string) (e : Entropy) : JS.value * Entropy :=
  if (symbol =? "y")%string then
    let array := ["8"; "9"; "a"; "b"]%string in
    let (r, e') := next_Math_random e in
    (array_get array (Qfloor (r * inject_Z (Z.of_nat (List.length array)))), e')
  else
    let (b, e') := next_Uint8 e in
    (JS.Str (toString16 (b mod 16)), e').

(** [template.replace(/[xy]/g, f)]: every [x] and [y], left to right,
    gives way to the string of what [f] returns for it. *)
Fixpoint replace_xy (f : string -> Entropy -> JS.value * Entropy)
    (template : string) (e : Entropy) : string * Entropy :=
  match template with
  | EmptyString => (EmptyString, e)
  | String c rest =>
      if Ascii.eqb c "x" || Ascii.eqb c "y" then
        let (v, e1) := f (String c EmptyString) e in
        let (out, e2) := replace_xy f rest e1 in
        (JS.toString v ++ out, e2)
      else
        let (out, e2) := replace_xy f rest e in
        (String c out, e2)
  end.

Definition generateRandomDeviceId (e : Entropy) : string * Entropy :=
  replace_xy getRandomSymbol "xxxxxxxx-xxxx-4xxx-yxxx-xxxxxxxxxxxx" e.

Definition checkForMobileApp (vizToLoad : Url.t) (userAgent : string)
    (e : Entropy) : Url.t * Entropy :=
  if negb (Text.mobileRegex_test userAgent) then (vizToLoad, e)
  else
    let deviceIdMatches := Text.deviceIdRegex_exec userAgent in
    let (deviceId, e') :=
      match deviceIdMatches with
      | None => generateRandomDeviceId e
      | Some group1 => (group1, e)
      end in
    let deviceNameMatches := Text.deviceNameRegex_exec userAgent in
    let deviceName :=
      match deviceNameMatches with
      | None => "SFMobileApp"
      | Some group1 => "SFMobileApp_" ++ group1
      end in
    (Url.append ":device_name" deviceName
       (Url.append ":device_id" deviceId
          (Url.append ":client_id" "TableauVizLWC"
             (Url.append ":use_rt" "y" vizToLoad))),
     e').

(** *** Eventing *)

(** The [TypeError] for [this.viz.addEventListener] on [undefined]. *)
Definition null_viz_error : JS.error :=
  JS.Error "Cannot read properties of undefined (reading 'addEventListener')".

Definition listenToMarksSelection (st : St) : JS.completion unit * St :=
  match viz (this st) with
  | None => (JS.Throw null_viz_error, st)
  | Some v =>
      let h := emit (AddEventListener v MARKS_SELECTION) (host st) in
      let h := emit (ConsoleLog (LogText "added event listener")) h in
      (JS.Normal tt, {| this := this st; host := h |})
  end.

Definition fireLwcMarkEvent (eventDetail : string) (st : St)
  : JS.completion unit * St :=
  let h := emit (ConsoleLog (LogJSON eventDetail)) (host st) in
  (* Dispatches the event. *)
  let h := emit (DispatchEvent "mark_fired" eventDetail) h in
  let payload := {| selectedTarget := eventDetail |} in
  let h := emit (Publish (messageContext (this st))
                   TABLEAU_VIZ_SELECTED_CHANNEL payload) h in
  let h := match publish_throws h with
           | Some error => emit (ConsoleLog (LogError error)) h
           | None => h
           end in
  (JS.Normal tt, {| this := this st; host := h |}).

(** The [switch] of [onMarksSelection]. *)
Definition rename_target (selectedTarget : string) : string :=
  if (selectedTarget =? "IBDaysOfBacklog (2)")%string then "Inbound"
  else if (selectedTarget =? "BPDaysOfBacklog")%string then "Breakpack"
  else if (selectedTarget =? "FC.DOB")%string then "Fullcase"
  else selectedTarget.

Definition onMarksSelection (marksEvent : MarksEvent) (st : St) : St :=
  let h := emit (ConsoleLog (LogText "onMarksSelection")) (host st) in
  let selectedTarget := worksheetName marksEvent in
  let h := emit (ConsoleLog (LogText selectedTarget)) h in
  let selectedTarget := rename_target selectedTarget in
  match fireLwcMarkEvent selectedTarget {| this := this st; host := h |} with
  | (JS.Normal _, st') =>
      {| this := this st';
         host := emit (ConsoleLog
                         (LogText (" fired message, item selected == "
                                   ++ selectedTarget))) (host st') |}
  | (JS.Throw error, st') =>
      {| this := this st';
         host := emit (ConsoleLog (LogError error)) (host st') |}
  end.

(** *** Rendering *)

(** The host once one more evaluation of the viz constructor has
    begun. *)
Definition record_call (call : VizCall) (h : Host) : Host :=
  {| placeholder := placeholder h; userAgent := userAgent h;
     entropy := entropy h; isConnected := isConnected h;
     publish_throws := publish_throws h;
     vizCalls := vizCalls h ++ [call];
     trace := trace h |}.

(** The host after [setVizDimensions] and [checkForMobileApp] have
    touched the placeholder and drawn their random values. *)
Definition touched (div : Container) (e : Entropy) (h : Host) : Host :=
  {| placeholder := Some div; userAgent := userAgent h;
     entropy := e; isConnected := isConnected h;
     publish_throws := publish_throws h; vizCalls := vizCalls h;
     trace := trace h |}.

Definition renderViz `{Platform} (st : St) : JS.completion unit * St :=
  (* Halt rendering if inputs are invalid or if there's an error *)
  let (valid, c) := validateInputs (this st) in
  let st := with_this c st in
  if negb valid || JS.truthy (errorMessage c) then (JS.Normal tt, st)
  (* Halt rendering if lib is not loaded *)
  else if negb (isLibLoaded c) then (JS.Normal tt, st)
  (* Halt rendering if advanced filter value is not yet loaded *)
  else if JS.truthy (sfAdvancedFilter (api c))
          && JS.strict_equal (advancedFilterValue c) JS.Undefined
  then (JS.Normal tt, st)
  else
    let containerDiv := placeholder (host st) in
    (* Configure viz URL *)
    match URL_new (JS.toString (vizUrl (api c))) with
    | JS.Throw e => (JS.Throw e, st)
    | JS.Normal vizToLoad =>
        match setVizDimensions c vizToLoad containerDiv with
        | JS.Throw e => (JS.Throw e, st)
        | JS.Normal (vizToLoad, div) =>
            let vizToLoad := setVizFilters c vizToLoad in
            let (vizToLoad, e) :=
              checkForMobileApp vizToLoad (userAgent (host st))
                (entropy (host st)) in
            let vizURLString := Url.toString vizToLoad in
            (* Set viz Options *)
            let options :=
              {| VizOptions.hideTabs := negb (JS.truthy (showTabs (api c)));
                 VizOptions.hideToolbar :=
                   negb (JS.truthy (showToolbar (api c)));
                 VizOptions.height := JS.toString (height (api c)) ++ "px";
                 VizOptions.width := "100%" |} in
            let call := {| call_container := div;
                           call_url := vizURLString;
                           call_options := options |} in
            let h := record_call call (touched div e (host st)) in
            match tableau_Viz (vizCalls (host st)) call with
            | JS.Throw error => (JS.Throw error, {| this := c; host := h |})
            | JS.Normal v =>
                (* listen for mark events *)
                listenToMarksSelection {| this := set_viz v c; host := h |}
            end
        end
    end.

(** *** Lifecycle *)

Definition renderedCallback `{Platform} (st : St) : JS.completion unit * St :=
  renderViz st.

(** [connectedCallback] up to its [await]: the script load is
    requested and the method is suspended. *)
Definition connectedCallback_start (st : St) : St :=
  {| this := this st; host := emit LoadScript (host st) |}.

(** [connectedCallback] after its [await], once the load has
    succeeded. *)
Definition connectedCallback_resume `{Platform} (st : St)
  : JS.completion unit * St :=
  renderViz (with_this (set_isLibLoaded true (this st)) st).

(** The wire handler [getRecord({ error, data })]. *)
Definition getRecord `{Platform} (error : option WireError)
    (data : option RecordData) (st : St) : JS.completion unit * St :=
  match data with
  | Some data =>
      let c := set_advancedFilterValue
                 (getFieldValue data (sfAdvancedFilter (api (this st))))
                 (this st) in
      if JS.strict_equal (advancedFilterValue c) JS.Undefined then
        (JS.Normal tt,
         with_this
           (set_errorMessage
              ("Failed to retrieve value for field "
               ++ JS.toString (sfAdvancedFilter (api c))) c) st)
      else renderViz (with_this c st)
  | None =>
      match error with
      | Some error =>
          (JS.Normal tt,
           with_this
             (set_errorMessage
                ("Failed to retrieve record data: "
                 ++ String.concat "," (reduceErrors error)) (this st)) st)
      | None => (JS.Normal tt, st)
      end
  end.

(** [render()]: which template is shown. *)
Inductive Template : Type := templateMain | templateError.

Definition render (c : Component) : Template :=
  if JS.truthy (errorMessage c) then templateError else templateMain.

(** What the runtime can do to an instance.  The class defines no
    [disconnectedCallback]: removing the element only changes the
    host. *)
Inductive Event `{Platform} : Type :=
| Connect
| ScriptLoaded
| ScriptFailed (reason : JS.error)
| Rendered
| Wire (error : option WireError) (data : option RecordData)
| Disconnect
| MarksSelected (ev : MarksEvent).

Definition handle `{Platform} (ev : Event) (st : St) : JS.completion unit * St :=
  match ev with
  | Connect => (JS.Normal tt, connectedCallback_start st)
  | ScriptLoaded => connectedCallback_resume st
  | ScriptFailed reason => (JS.Throw reason, st)
  | Rendered => renderedCallback st
  | Wire error data => getRecord error data st
  | Disconnect =>
      (JS.Normal tt, {| this := this st; host := set_isConnected false (host st) |})
  | MarksSelected ev => (JS.Normal tt, onMarksSelection ev st)
  end.

Definition run `{Platform} (evs : list Event) (st : St) : St :=
  fold_left (fun s ev => snd (handle ev s)) evs st.

(* ================================================================= *)
(** ** A small platform to run the component on *)

(** A reader for URLs of the plain form [http(s)://host/path#fragment].
    It throws for every other string, which is more often than a
    browser does; the theorems below hold for every [Platform], this one
    only feeds the worked examples. *)
Module Sample.

Fixpoint break (stop : ascii -> bool) (s : string) : string * string :=
  match s with
  | EmptyString => (EmptyString, EmptyString)
  | String c s' =>
      if stop c then (EmptyString, s)
      else let (a, b) := break stop s' in (String c a, b)
  end.

Definition invalid : JS.completion Url.t :=
  JS.Throw (JS.Error "Failed to construct 'URL': Invalid URL").

Definition URL_new (s : string) : JS.completion Url.t :=
  let (scheme, rest) := break (Ascii.eqb ":") s in
  if negb ((scheme =? "https") || (scheme =? "http"))%string then invalid
  else if negb (String.prefix "://" rest) then invalid
  else
    let (hostname, rest) :=
      break (fun c => Ascii.eqb c "/" || Ascii.eqb c "#" || Ascii.eqb c "?")
        (Text.drop 3 rest) in
    if (hostname =? "")%string then invalid
    else
      let (path, rest) :=
        break (fun c => Ascii.eqb c "#" || Ascii.eqb c "?") rest in
      let origin := scheme ++ "://" ++ hostname in
      let locator := origin ++ (if (path =? "")%string then "/" else path) in
      match rest with
      | EmptyString =>
          JS.Normal (Url.Make (scheme ++ ":") origin locator None None [])
      | String c f =>
          if Ascii.eqb c "#" then
            JS.Normal (Url.Make (scheme ++ ":") origin locator None (Some f) [])
          else invalid
      end.

(** Records as field/value lists. *)
Fixpoint lookup (data : list (string * JS.value)) (field : string) : JS.value :=
  match data with
  | [] => JS.Undefined
  | (k, v) :: rest => if (k =? field)%string then v else lookup rest field
  end.

(** Modelled from the spec: the constructor of the Tableau library,
    [Viz(container, url, options) -> VizHandle], which is not part of
    the component's source.  Every evaluation returns a handle of its
    own, the number of evaluations before it. *)
Definition tableau_Viz (before : list VizCall) (now : VizCall)
  : JS.completion VizHandle :=
  JS.Normal (List.length before).

#[export] Instance platform : Platform := {
  URL_new := URL_new;
  tableau_Viz := tableau_Viz;
  RecordData := list (string * JS.value);
  getFieldValue := fun data field => lookup data (JS.toString field);
  reduceErrors := fun e => match e with MkWireError l => l end
}.

(** A library that refuses a second viz: its constructor throws once
    it has been evaluated before. *)
Definition one_viz_only (before : list VizCall) (now : VizCall)
  : JS.completion VizHandle :=
  match before with
  | [] => JS.Normal 0%nat
  | _ :: _ => JS.Throw (JS.Error "There is already a viz in this element")
  end.

Definition strict : Platform :=
  Build_Platform URL_new one_viz_only (list (string * JS.value))
    (fun data field => lookup data (JS.toString field))
    (fun e => match e with MkWireError l => l end).

Definition config : Config :=
  {| objectApiName := JS.Str "Account";
     recordId := JS.Str "001x";
     vizUrl := JS.Str "https://tableau.example.com/views/Backlog/Days";
     showTabs := JS.Bool false;
     showToolbar := JS.Bool true;
     filterOnRecordId := JS.Bool true;
     height := JS.Number 600;
     tabAdvancedFilter := JS.Undefined;
     sfAdvancedFilter := JS.Undefined |}.

Definition component (cfg : Config) : Component :=
  {| api := cfg; viz := None; advancedFilterValue := JS.Undefined;
     errorMessage := JS.Undefined; isLibLoaded := false;
     messageContext := Some 0%nat |}.

Definition dice : Entropy :=
  {| Math_random := fun i => (Qmake (Z.of_nat i mod 4) 4 + Qmake 1 8)%Q;
     Math_random_calls := 0;
     crypto_byte := fun i => 37 * Z.of_nat i + 11;
     crypto_calls := 0 |}.

Definition browser (ua : string) : Host :=
  {| placeholder := Some {| style_height := ""; offsetWidth := 800 |};
     userAgent := ua;
     entropy := dice;
     isConnected := true;
     publish_throws := None;
     vizCalls := [];
     trace := [] |}.

(** A configuration that filters on a field of the record. *)
Definition filtered : Config :=
  {| objectApiName := JS.Str "Account";
     recordId := JS.Str "001x";
     vizUrl := JS.Str "https://tableau.example.com/views/Backlog/Days";
     showTabs := JS.Bool false;
     showToolbar := JS.Bool true;
     filterOnRecordId := JS.Bool false;
     height := JS.Number 600;
     tabAdvancedFilter := JS.Str "Region";
     sfAdvancedFilter := JS.Str "Account.Region__c" |}.


(** No record id in sight. *)
Definition no_record : Config :=
  {| objectApiName := JS.Str "Account";
     recordId := JS.Undefined;
     vizUrl := JS.Str "https://tableau.example.com/views/Backlog/Days";
     showTabs := JS.Bool false;
     showToolbar := JS.Bool true;
     filterOnRecordId := JS.Bool true;
     height := JS.Number 600;
     tabAdvancedFilter := JS.Undefined;
     sfAdvancedFilter := JS.Undefined |}.

(** A link that is not secure. *)
Definition insecure : Config :=
  {| objectApiName := JS.Str "Account";
     recordId := JS.Str "001x";
     vizUrl := JS.Str "http://tableau.example.com/views/Backlog/Days";
     showTabs := JS.Bool false;
     showToolbar := JS.Bool true;
     filterOnRecordId := JS.Bool true;
     height := JS.Number 600;
     tabAdvancedFilter := JS.Undefined;
     sfAdvancedFilter := JS.Undefined |}.

(** Only the Tableau half of the filter pair. *)
Definition one_sided : Config :=
  {| objectApiName := JS.Str "Account";
     recordId := JS.Str "001x";
     vizUrl := JS.Str "https://tableau.example.com/views/Backlog/Days";
     showTabs := JS.Bool false;
     showToolbar := JS.Bool true;
     filterOnRecordId := JS.Bool true;
     height := JS.Number 600;
     tabAdvancedFilter := JS.Str "Region";
     sfAdvancedFilter := JS.Undefined |}.

(** The link of a view as the browser's address bar shows it. *)
Definition address_bar : Config :=
  {| objectApiName := JS.Str "Account";
     recordId := JS.Str "001x";
     vizUrl := JS.Str "https://tableau.example.com/#/site/sales/views/Backlog/Days";
     showTabs := JS.Bool false;
     showToolbar := JS.Bool true;
     filterOnRecordId := JS.Bool true;
     height := JS.Number 600;
     tabAdvancedFilter := JS.Undefined;
     sfAdvancedFilter := JS.Undefined |}.

(** The parsed [vizUrl] of these configurations. *)
Definition view : Url.t :=
  Url.Make "https:" "https://tableau.example.com"
    "https://tableau.example.com/views/Backlog/Days" None None [].

Definition desktop : string :=
  "Mozilla/5.0 (Macintosh; Intel Mac OS X 10_15_7) AppleWebKit/537.36".

Definition iphone : string :=
  "SalesforceMobileSDK/9.1.0 iOS/15.4 (iPhone) Chatter/236.030 Hybrid".

(** A phone that reports a device id, and its family in lower case. *)
Definition android : string :=
  "SalesforceMobileSDK/9.1.0 android mobile/12 (Pixel 6) Chatter/236.030 Hybrid uid_3f9a-77c1|b2 ftr_".

(** A tablet whose user agent also names the phone. *)
Definition ipad : string :=
  "SalesforceMobileSDK/9.1.0 iOS/15.4 (iPad) Chatter/236.030 Hybrid iPhone-compatible".

Definition start (cfg : Config) (ua : string) : St :=
  {| this := component cfg; host := browser ua |}.

(** The same once the Tableau script has arrived. *)
Definition loaded (cfg : Config) (ua : string) : St :=
  {| this := set_isLibLoaded true (component cfg); host := browser ua |}.

(** What the record wire delivers for [filtered]. *)
Definition emea : list (string * JS.value) :=
  [("Account.Region__c", JS.Str "EMEA")].

End Sample.

(* ================================================================= *)
(** ** The properties, in the words of the specification *)

(** A configuration field is set when the code takes it for present,
    that is when it is truthy. *)
Definition is_set (v : JS.value) : Prop := JS.truthy v = true.

(** "Defined and non-empty": neither [undefined] nor [null] nor the
    empty string. *)
Definition defined_and_non_empty (v : JS.value) : Prop :=
  v <> JS.Undefined /\ v <> JS.Null /\ v <> JS.Str "".

(** The parameter that in-context filtering contributes. *)
Definition in_context_params (c : Component) : list (string * string) :=
  match filterOnRecordId (api c) with
  | JS.Bool true =>
      if JS.truthy (objectApiName (api c)) then
        [(JS.toString (objectApiName (api c)) ++ " ID",
          JS.toString (recordId (api c)))]
      else []
  | _ => []
  end.

(** The parameter that advanced filtering contributes. *)
Definition advanced_params (c : Component) : list (string * string) :=
  if JS.truthy (tabAdvancedFilter (api c)) then
    if JS.truthy (advancedFilterValue c) then
      [(JS.toString (tabAdvancedFilter (api c)),
        JS.toString (advancedFilterValue c))]
    else []
  else [].

(** The static rename table of worksheet names. *)
Definition rename_table : list (string * string) :=
  [("IBDaysOfBacklog (2)", "Inbound");
   ("BPDaysOfBacklog", "Breakpack");
   ("FC.DOB", "Fullcase")].

(** Looking a name up in a rename table, the name itself standing in
    when the table has no entry for it. *)
Fixpoint renamed (table : list (string * string)) (name : string) : string :=
  match table with
  | [] => name
  | (raw, label) :: rest =>
      if (name =? raw)%string then label else renamed rest name
  end.

(** The payloads handed to [publish], oldest first. *)
Fixpoint published (tr : list Effect) : list Payload :=
  match tr with
  | [] => []
  | Publish _ _ p :: rest => p :: published rest
  | _ :: rest => published rest
  end.

Definition hex_digit (c : ascii) : bool :=
  Text.between "0" "9" c || Text.between "a" "f" c.

Definition y_digit (c : ascii) : bool :=
  Ascii.eqb c "8" || Ascii.eqb c "9" || Ascii.eqb c "a" || Ascii.eqb c "b".

(** One character of an identifier against one character of the
    pattern: [x] stands for a hexadecimal digit, [y] for one of 8, 9,
    a, b, and every other character for itself. *)
Definition shape_char (p c : ascii) : bool :=
  if Ascii.eqb p "x" then hex_digit c
  else if Ascii.eqb p "y" then y_digit c
  else Ascii.eqb c p.

Fixpoint has_shape (pattern s : string) : bool :=
  match pattern, s with
  | EmptyString, EmptyString => true
  | String p pattern', String c s' => shape_char p c && has_shape pattern' s'
  | _, _ => false
  end.

Definition uuid_shape (s : string) : bool :=
  has_shape "xxxxxxxx-xxxx-4xxx-yxxx-xxxxxxxxxxxx" s.

(** [Math.random()] returns a number in [[0, 1)]. *)
Definition unit_interval (e : Entropy) : Prop :=
  forall i, (0 <= Math_random e i)%Q /\ (Math_random e i < 1)%Q.

(** The Ready checks of [renderViz], on the component that
    [validateInputs] leaves behind. *)
Definition ready `{Platform} (c : Component) : bool :=
  let (valid, c') := validateInputs c in
  valid && negb (JS.truthy (errorMessage c'))
  && isLibLoaded c'
  && negb (JS.truthy (sfAdvancedFilter (api c'))
           && JS.strict_equal (advancedFilterValue c') JS.Undefined).

(** The sizing parameter: ["{width},{height}"] under the name [:size]. *)
Definition size_param (c : Component) (div : Container) : string * string :=
  (":size",
   JS.string_of_Z (offsetWidth div) ++ "," ++ JS.toString (height (api c))).

(** The options object derived from the configuration. *)
Definition derived_options (c : Component) : VizOptions.t :=
  {| VizOptions.hideTabs := negb (JS.truthy (showTabs (api c)));
     VizOptions.hideToolbar := negb (JS.truthy (showToolbar (api c)));
     VizOptions.height := JS.toString (height (api c)) ++ "px";
     VizOptions.width := "100%" |}.

(** The placeholder once its height has been set. *)
Definition resized (c : Component) (div : Container) : Container :=
  {| style_height := JS.toString (height (api c)) ++ "px";
     offsetWidth := offsetWidth div |}.

(** The query string of a URL is the serialization of its parameter
    list. *)
Definition query_in_step (u : Url.t) : Prop :=
  Url.query u = Some (Url.urlencoded (Url.searchParams u)).

(** The same state with the element attached to the document
    ([true]) or taken out of it ([false]). *)
Definition with_liveness (b : bool) (st : St) : St :=
  {| this := this st; host := set_isConnected b (host st) |}.

(* ================================================================= *)
(** ** The subscriber and the publisher components *)

(** [LmsSubscriberWebComponent], as far as messages reach it: its
    fields and [handleMessage]. *)
Module Subscriber.

Record t : Type := Make {
  subscription : option nat;
  selectedTarget : JS.value;
  messageContext : option MessageContext
}.

(** A new instance: [subscription = null], [selectedTarget] not yet
    assigned. *)
Definition fresh (ctx : option MessageContext) : t :=
  {| subscription := None; selectedTarget := JS.Undefined;
     messageContext := ctx |}.

(** [handleMessage(message)] *)
Definition handleMessage (message : Payload) (s : t) : t :=
  let 'Build_Payload message_selectedTarget := message in
  {| subscription := subscription s;
     selectedTarget := JS.Str message_selectedTarget;
     messageContext := messageContext s |}.

(** The handler run on every message of a list, oldest first. *)
Definition deliver (messages : list Payload) (s : t) : t :=
  fold_left (fun acc m => handleMessage m acc) messages s.

End Subscriber.

(** [LmsPublisherWebComponent.handleClick(event)], for a click on an
    element with the given label: the one call of [publish] it makes. *)
Definition handleClick (ctx : option MessageContext) (label : string) : Effect :=
  let selectedTargetValue := label in
  let payload := {| selectedTarget := selectedTargetValue |} in
  Publish ctx TABLEAU_VIZ_SELECTED_CHANNEL payload.

(* ================================================================= *)
(** ** The host at work *)

(** The owner of the element writes its public properties. *)
Definition set_api (cfg : Config) (c : Component) : Component :=
  {| api := cfg; viz := viz c;
     advancedFilterValue := advancedFilterValue c;
     errorMessage := errorMessage c;
     isLibLoaded := isLibLoaded c; messageContext := messageContext c |}.

(** What happens to an instance from outside: the runtime fires one of
    its events, or the owner rewrites the configuration (which runs no
    code of the class; the re-render it causes is an event of its
    own). *)
Inductive HostAction `{Platform} : Type :=
| Fire (ev : Event)
| Configure (cfg : Config).

Definition act `{Platform} (a : HostAction) (st : St) : St :=
  match a with
  | Fire ev => snd (handle ev st)
  | Configure cfg => with_this (set_api cfg (this st)) st
  end.

Definition run_host `{Platform} (acts : list HostAction) (st : St) : St :=
  fold_left (fun s a => act a s) acts st.

Definition is_ScriptLoaded `{Platform} (a : HostAction) : bool :=
  match a with
  | Fire ScriptLoaded => true
  | _ => false
  end.

(** The configuration the owner wrote last, [cfg] if it wrote none. *)
Definition last_configured `{Platform} (acts : list HostAction) (cfg : Config)
  : Config :=
  fold_left (fun cur a => match a with
                          | Configure c => c
                          | Fire _ => cur
                          end) acts cfg.

(** The local DOM events raised, oldest first, as type and detail. *)
Fixpoint dispatched (tr : list Effect) : list (string * string) :=
  match tr with
  | [] => []
  | DispatchEvent type detail :: rest => (type, detail) :: dispatched rest
  | _ :: rest => dispatched rest
  end.

(** The names of the four mobile parameters, in order. *)
Definition mobile_names : list string :=
  [":use_rt"; ":client_id"; ":device_id"; ":device_name"].

(** The device names [checkForMobileApp] can produce. *)
Definition device_names : list string :=
  ["SFMobileApp"; "SFMobileApp_iPhone"; "SFMobileApp_Android";
   "SFMobileApp_iPad"].

(** Every character of a string satisfies a test. *)
Fixpoint all_chars (f : ascii -> bool) (s : string) : bool :=
  match s with
  | EmptyString => true
  | String c s' => f c && all_chars f s'
  end.

(** A string does not go on with a character that the device-id
    pattern would still take. *)
Definition ends_token (post : string) : bool :=
  match post with
  | EmptyString => true
  | String c _ => negb (Text.uid_char c)
  end.

(** How often a character occurs in a string. *)
Fixpoint occurrences (c : ascii) (s : string) : nat :=
  match s with
  | EmptyString => O
  | String d s' => (if Ascii.eqb d c then 1 else 0) + occurrences c s'
  end.

(* ================================================================= *)
(** ** Embed URLs as text *)

(** What [toString] prints for the fragment. *)
Definition fragment_text (u : Url.t) : string :=
  match Url.fragment u with
  | Some f => "#" ++ f
  | None => ""
  end.

(** A URL with further parameters behind its own: the list grows and
    the query string becomes the serialization of the whole list.  With
    nothing to add the URL is left as it is, query string included. *)
Definition with_params (extra : list (string * string)) (u : Url.t) : Url.t :=
  match extra with
  | [] => u
  | _ :: _ =>
      {| Url.protocol := Url.protocol u;
         Url.origin := Url.origin u;
         Url.locator := Url.locator u;
         Url.query := Some (Url.urlencoded (Url.searchParams u ++ extra));
         Url.fragment := Url.fragment u;
         Url.searchParams := Url.searchParams u ++ extra |}
  end.

(** The text of a URL whose parameter list is [params]: everything up
    to the path, [?], the serialized list, the fragment. *)
Definition url_text (u0 : Url.t) (params : list (string * string)) : string :=
  Url.locator u0 ++ "?" ++ Url.urlencoded params ++ fragment_text u0.

(** The device-family tokens. *)
Definition family_tokens : list string := ["iPhone"; "Android"; "iPad"].

(** None of the first [n] positions of a text is the start of a family
    token. *)
Fixpoint clear_before (n : nat) (t : string) : bool :=
  match n with
  | O => true
  | S n' =>
      negb (String.prefix "iPhone" t) && negb (String.prefix "Android" t)
      && negb (String.prefix "iPad" t)
      && match t with
         | EmptyString => true
         | String _ t' => clear_before n' t'
         end
  end.

(* ================================================================= *)
(** ** Values *)

(** Statements without a platform of their own run on the sample one. *)
#[local] Existing Instance Sample.platform.

Lemma strict_equal_true (v : JS.value) :
  JS.strict_equal v (JS.Bool true) = true <-> v = JS.Bool true.
Proof.
  destruct v as [| |[|]| | |]; simpl; split; intro E;
    try reflexivity; try discriminate E.
Qed.

Lemma strict_equal_undefined (v : JS.value) :
  JS.strict_equal v JS.Undefined = true <-> v = JS.Undefined.
Proof.
  destruct v; simpl; split; intro E; try reflexivity; discriminate E.
Qed.

Lemma truthy_defined_and_non_empty (v : JS.value) :
  JS.truthy v = true -> defined_and_non_empty v.
Proof.
  intro T; repeat split; intro E; subst v; discriminate T.
Qed.

(* ================================================================= *)
(** ** Query parameters *)

Lemma searchParams_append (n v : string) (u : Url.t) :
  Url.searchParams (Url.append n v u) = (Url.searchParams u ++ [(n, v)])%list.
Proof. reflexivity. Qed.

(** [setVizFilters] appends the in-context parameter, then the
    advanced one, and nothing else. *)
Lemma setVizFilters_params (c : Component) (u : Url.t) :
  Url.searchParams (setVizFilters c u)
  = (Url.searchParams u ++ in_context_params c ++ advanced_params c)%list.
Proof.
  unfold setVizFilters, in_context_params, advanced_params.
  destruct (filterOnRecordId (api c)) as [| |[|]| | |]; simpl;
    destruct (JS.truthy (objectApiName (api c)));
    destruct (JS.truthy (tabAdvancedFilter (api c)));
    destruct (JS.truthy (advancedFilterValue c)); simpl;
    rewrite ?searchParams_append, ?app_nil_r, <- ?app_assoc; reflexivity.
Qed.

(** C2, as stated, fails: with both filter fields set, a resolved value
    of [0] or of [false] is defined and non-empty, and [setVizFilters]
    appends nothing for it. *)
Lemma zero_and_false_are_not_appended :
  let zero := set_advancedFilterValue (JS.Number 0)
                (Sample.component Sample.filtered) in
  let no := set_advancedFilterValue (JS.Bool false)
              (Sample.component Sample.filtered) in
  is_set (tabAdvancedFilter (api zero))
  /\ is_set (sfAdvancedFilter (api zero))
  /\ defined_and_non_empty (advancedFilterValue zero)
  /\ defined_and_non_empty (advancedFilterValue no)
  /\ Url.searchParams (setVizFilters zero Sample.view) = []
  /\ Url.searchParams (setVizFilters no Sample.view) = []
  /\ Url.toString (setVizFilters zero Sample.view)
     = "https://tableau.example.com/views/Backlog/Days"
  /\ Url.toString (setVizFilters no Sample.view)
     = "https://tableau.example.com/views/Backlog/Days".
Proof.
  cbv zeta. repeat split; try reflexivity; intro E; discriminate E.
Qed.



(* ================================================================= *)
(** ** Validation *)

Lemma set_errorMessage_truthy (m : string) (c : Component) :
  m <> "" -> JS.truthy (errorMessage (set_errorMessage m c)) = true.
Proof.
  intro N. simpl. destruct (String.eqb_spec m ""); [contradiction|reflexivity].
Qed.

(** [validateInputs] either accepts and leaves the component alone, or
    rejects and records a message that is not empty. *)
Lemma validateInputs_cases `{P : Platform} (c : Component) :
  validateInputs c = (true, c)
  \/ exists m, m <> "" /\ validateInputs c = (false, set_errorMessage m c).
Proof.
  unfold validateInputs.
  destruct (validate_url c) as [[]|e].
  - destruct (_ || _).
    + right. exists filter_pair_message. split; [discriminate|reflexivity].
    + left. reflexivity.
  - right. simpl JS.truthy.
    destruct (String.eqb_spec (JS.message e) "") as [E|N]; simpl.
    + exists "Invalid URL". split; [discriminate|reflexivity].
    + exists (JS.message e). split; [exact N|reflexivity].
Qed.

(** A rejected configuration stops [renderViz] at its first check. *)
Lemma renderViz_rejected `{P : Platform} (st : St) (c : Component) :
  validateInputs (this st) = (false, c) ->
  renderViz st = (JS.Normal tt, with_this c st).
Proof.
  intro V. unfold renderViz. rewrite V. reflexivity.
Qed.

(** C6: a [vizUrl] that parses to a scheme other than https fails
    validation: [validateInputs] returns false and records the HTTPS
    message, and [renderViz] stops there, producing no embed URL. *)
Theorem non_https_is_rejected `{P : Platform} (st : St) (u : Url.t) :
  URL_new (JS.toString (vizUrl (api (this st)))) = JS.Normal u ->
  Url.protocol u <> "https:" ->
  validateInputs (this st)
  = (false, set_errorMessage https_message (this st))
  /\ JS.truthy (errorMessage (set_errorMessage https_message (this st))) = true
  /\ renderViz st
     = (JS.Normal tt,
        with_this (set_errorMessage https_message (this st)) st).
Proof.
  intros Parsed Scheme.
  assert (V : validateInputs (this st)
              = (false, set_errorMessage https_message (this st))).
  { unfold validateInputs, validate_url. rewrite Parsed.
    destruct (String.eqb_spec (Url.protocol u) "https:") as [E|_];
      [contradiction|reflexivity]. }
  split; [exact V|]. split; [reflexivity|].
  apply renderViz_rejected, V.
Qed.

Lemma non_https_is_rejected_witness :
  renderViz (Sample.start Sample.insecure Sample.desktop)
  = (JS.Normal tt,
     with_this
       (set_errorMessage https_message (Sample.component Sample.insecure))
       (Sample.start Sample.insecure Sample.desktop)).
Proof.
  apply (non_https_is_rejected
           (Sample.start Sample.insecure Sample.desktop)
           (Url.Make "http:" "http://tableau.example.com"
              "http://tableau.example.com/views/Backlog/Days" None None [])).
  - reflexivity.
  - simpl; intro E; discriminate E.
Defined.

(** C5: when exactly one of [tabAdvancedFilter] and [sfAdvancedFilter]
    is set, whatever the other fields hold, [validateInputs] returns
    false and records a message that is not empty (the filter-pair
    message when the URL itself is fine), and [renderViz] stops there. *)
Theorem mismatched_filter_pair_is_rejected `{P : Platform} (st : St) :
  (is_set (tabAdvancedFilter (api (this st)))
   /\ ~ is_set (sfAdvancedFilter (api (this st))))
  \/ (~ is_set (tabAdvancedFilter (api (this st)))
      /\ is_set (sfAdvancedFilter (api (this st)))) ->
  exists m,
    m <> ""
    /\ validateInputs (this st) = (false, set_errorMessage m (this st))
    /\ JS.truthy (errorMessage (set_errorMessage m (this st))) = true
    /\ renderViz st = (JS.Normal tt, with_this (set_errorMessage m (this st)) st)
    /\ (validate_url (this st) = JS.Normal tt -> m = filter_pair_message).
Proof.
  unfold is_set. intro One.
  assert (X : (JS.truthy (sfAdvancedFilter (api (this st)))
               && negb (JS.truthy (tabAdvancedFilter (api (this st))))
               || negb (JS.truthy (sfAdvancedFilter (api (this st))))
                  && JS.truthy (tabAdvancedFilter (api (this st)))) = true).
  { destruct (JS.truthy (sfAdvancedFilter (api (this st))));
      destruct (JS.truthy (tabAdvancedFilter (api (this st))));
      try reflexivity; destruct One as [[A B]|[A B]];
      try discriminate A; try discriminate B;
      exfalso; (apply A || apply B); reflexivity. }
  assert (V : exists m, m <> ""
              /\ validateInputs (this st) = (false, set_errorMessage m (this st))
              /\ (validate_url (this st) = JS.Normal tt -> m = filter_pair_message)).
  { unfold validateInputs.
    destruct (validate_url (this st)) as [[]|e].
    - rewrite X. exists filter_pair_message.
      repeat split; [discriminate].
    - simpl JS.truthy.
      destruct (String.eqb_spec (JS.message e) "") as [E|N]; simpl.
      + exists "Invalid URL". repeat split; [discriminate|discriminate].
      + exists (JS.message e). repeat split; [exact N|discriminate]. }
  destruct V as (m & N & V & M). exists m.
  split; [exact N|]. split; [exact V|].
  split; [apply set_errorMessage_truthy, N|].
  split; [apply renderViz_rejected, V|exact M].
Qed.

Lemma mismatched_filter_pair_is_rejected_witness :
  exists m,
    m <> ""
    /\ validateInputs (Sample.component Sample.one_sided)
       = (false, set_errorMessage m (Sample.component Sample.one_sided))
    /\ JS.truthy (errorMessage
                    (set_errorMessage m (Sample.component Sample.one_sided)))
       = true
    /\ renderViz (Sample.start Sample.one_sided Sample.desktop)
       = (JS.Normal tt,
          with_this (set_errorMessage m (Sample.component Sample.one_sided))
            (Sample.start Sample.one_sided Sample.desktop))
    /\ (validate_url (Sample.component Sample.one_sided) = JS.Normal tt ->
        m = filter_pair_message).
Proof.
  apply (mismatched_filter_pair_is_rejected
           (Sample.start Sample.one_sided Sample.desktop)).
  left. split; [reflexivity|]. simpl. intro E; discriminate E.
Defined.

(* ================================================================= *)
(** ** Rendering *)

Lemma ready_inv `{P : Platform} (c : Component) :
  ready c = true ->
  validateInputs c = (true, c)
  /\ JS.truthy (errorMessage c) = false
  /\ isLibLoaded c = true
  /\ (JS.truthy (sfAdvancedFilter (api c))
      && JS.strict_equal (advancedFilterValue c) JS.Undefined) = false
  /\ exists u0, URL_new (JS.toString (vizUrl (api c))) = JS.Normal u0.
Proof.
  unfold ready. intro R.
  destruct (validateInputs_cases c) as [V|(m & _ & V)]; rewrite V in R.
  - apply andb_prop in R. destruct R as [R G].
    apply andb_prop in R. destruct R as [R L].
    apply andb_prop in R. destruct R as [_ E].
    apply negb_true_iff in E, G.
    repeat split; try assumption.
    unfold validateInputs in V.
    destruct (validate_url c) as [[]|e] eqn:U; [|discriminate V].
    unfold validate_url in U.
    destruct (URL_new (JS.toString (vizUrl (api c)))) as [u0|e];
      [exists u0; reflexivity|discriminate U].
  - discriminate R.
Qed.

(** A failed check: nothing happens beyond what [validateInputs]
    recorded. *)
Lemma renderViz_not_ready `{P : Platform} (st : St) :
  ready (this st) = false ->
  renderViz st = (JS.Normal tt, with_this (snd (validateInputs (this st))) st).
Proof.
  unfold ready, renderViz.
  destruct (validateInputs (this st)) as [valid c]. simpl snd.
  destruct valid; simpl; [|reflexivity].
  destruct (JS.truthy (errorMessage c)); simpl; [reflexivity|].
  destruct (isLibLoaded c); simpl; [|reflexivity].
  destruct (JS.truthy (sfAdvancedFilter (api c))
            && JS.strict_equal (advancedFilterValue c) JS.Undefined);
    simpl; [reflexivity|discriminate].
Qed.

(** All checks passed but the template has no placeholder:
    [setVizDimensions] throws and the state stays as it was. *)
Lemma renderViz_no_placeholder `{P : Platform} (st : St) :
  ready (this st) = true ->
  placeholder (host st) = None ->
  renderViz st = (JS.Throw null_container_error, with_this (this st) st).
Proof.
  intros R N. destruct (ready_inv _ R) as (V & E & L & G & u0 & U).
  unfold renderViz. rewrite V. simpl negb.
  rewrite E, L, G. simpl. rewrite U, N. reflexivity.
Qed.

(** All checks passed and the placeholder is there: the constructor
    is evaluated once more, and the handle it returns lands in [viz]. *)
Lemma renderViz_ready `{P : Platform} (st : St) (div : Container) :
  ready (this st) = true ->
  placeholder (host st) = Some div ->
  exists u0 u e,
    URL_new (JS.toString (vizUrl (api (this st)))) = JS.Normal u0
    /\ checkForMobileApp
         (setVizFilters (this st)
            (Url.append (fst (size_param (this st) div))
               (snd (size_param (this st) div)) u0))
         (userAgent (host st)) (entropy (host st)) = (u, e)
    /\ let call := {| call_container := resized (this st) div;
                      call_url := Url.toString u;
                      call_options := derived_options (this st) |} in
       vizCalls (host (snd (renderViz st)))
       = (vizCalls (host st) ++ [call])%list
       /\ fst (renderViz st)
          = match tableau_Viz (vizCalls (host st)) call with
            | JS.Normal _ => JS.Normal tt
            | JS.Throw error => JS.Throw error
            end
       /\ this (snd (renderViz st))
          = match tableau_Viz (vizCalls (host st)) call with
            | JS.Normal v => set_viz v (this st)
            | JS.Throw _ => this st
            end.
Proof.
  intros R D. destruct (ready_inv _ R) as (V & E & L & G & u0 & U).
  exists u0.
  destruct (checkForMobileApp
              (setVizFilters (this st)
                 (Url.append (fst (size_param (this st) div))
                    (snd (size_param (this st) div)) u0))
              (userAgent (host st)) (entropy (host st))) as [u e] eqn:M.
  exists u, e. split; [exact U|]. split; [reflexivity|].
  unfold renderViz. rewrite V. simpl negb.
  rewrite E, L, G. simpl. rewrite U, D. simpl.
  simpl in M. rewrite M.
  change {| style_height := (JS.toString (height (api (this st))) ++ "px")%string;
            offsetWidth := offsetWidth div |} with (resized (this st) div).
  change {| VizOptions.hideTabs := negb (JS.truthy (showTabs (api (this st))));
            VizOptions.hideToolbar :=
              negb (JS.truthy (showToolbar (api (this st))));
            VizOptions.height :=
              (JS.toString (height (api (this st))) ++ "px")%string;
            VizOptions.width := "100%" |} with (derived_options (this st)).
  destruct (tableau_Viz _ _); repeat split; reflexivity.
Qed.

(** *** The query string follows the parameter list *)

Lemma append_empty (a b : string) : (a ++ b)%string = "" -> a = "" /\ b = "".
Proof.
  destruct a; simpl; intro E; [split; [reflexivity|exact E]|discriminate E].
Qed.

Lemma encode_pair_not_empty (p : string * string) : Url.encode_pair p <> "".
Proof.
  unfold Url.encode_pair. intro E.
  apply append_empty in E. destruct E as [_ E]. discriminate E.
Qed.

Lemma urlencoded_not_empty (l : list (string * string)) :
  l <> [] -> Url.urlencoded l <> "".
Proof.
  destruct l as [|p l]; [intro N; contradiction|intros _].
  unfold Url.urlencoded. simpl.
  destruct (map Url.encode_pair l); intro E.
  - exact (encode_pair_not_empty p E).
  - apply append_empty in E. destruct E as [E _].
    exact (encode_pair_not_empty p E).
Qed.

Lemma append_in_step (n v : string) (u : Url.t) :
  query_in_step (Url.append n v u).
Proof.
  unfold query_in_step, Url.append. simpl.
  destruct (String.eqb_spec
              (Url.urlencoded (Url.searchParams u ++ [(n, v)])) "") as [E|_];
    [|reflexivity].
  exfalso. revert E. apply urlencoded_not_empty.
  destruct (Url.searchParams u); discriminate.
Qed.

Lemma setVizFilters_in_step (c : Component) (u : Url.t) :
  query_in_step u -> query_in_step (setVizFilters c u).
Proof.
  intro I. unfold setVizFilters.
  destruct (_ && _); destruct (_ && _);
    try apply append_in_step; exact I.
Qed.

(** [checkForMobileApp] only appends. *)
Lemma checkForMobileApp_appends (u : Url.t) (ua : string) (e : Entropy) :
  (query_in_step u -> query_in_step (fst (checkForMobileApp u ua e)))
  /\ exists l,
       Url.searchParams (fst (checkForMobileApp u ua e))
       = (Url.searchParams u ++ l)%list.
Proof.
  unfold checkForMobileApp.
  destruct (Text.mobileRegex_test ua); simpl.
  - destruct (match Text.deviceIdRegex_exec ua with
              | Some group1 => (group1, e)
              | None => generateRandomDeviceId e
              end) as [deviceId e']. simpl.
    split; [intros _; apply append_in_step|].
    eexists. rewrite <- !app_assoc. reflexivity.
  - split; [intro I; exact I|]. exists []. rewrite app_nil_r. reflexivity.
Qed.

Lemma not_own_extension {A : Type} (l : list A) (x : A) : l <> (l ++ [x])%list.
Proof.
  intro E. apply (f_equal (@List.length A)) in E.
  rewrite length_app in E. simpl in E. lia.
Qed.

(** C7: with [filterOnRecordId = true], [objectApiName = "Account"] and
    [recordId = "001x"], every embed URL that [renderViz] hands to the
    viz constructor is the text of a URL whose parameter list holds
    ["Account ID" = "001x"] and whose query string is the
    serialization of that list. *)
Theorem account_id_parameter `{P : Platform} (st : St) (call : VizCall) :
  filterOnRecordId (api (this st)) = JS.Bool true ->
  objectApiName (api (this st)) = JS.Str "Account" ->
  recordId (api (this st)) = JS.Str "001x" ->
  vizCalls (host (snd (renderViz st))) = (vizCalls (host st) ++ [call])%list ->
  exists u,
    call_url call = Url.toString u
    /\ query_in_step u
    /\ In ("Account ID", "001x") (Url.searchParams u).
Proof.
  intros F O I C.
  destruct (ready (this st)) eqn:R.
  - destruct (placeholder (host st)) as [div|] eqn:D.
    + destruct (renderViz_ready st div R D) as (u0 & u & e & _ & M & C' & _ & _).
      rewrite C' in C. apply app_inv_head in C. injection C as <-.
      exists u. split; [reflexivity|].
      pose proof (checkForMobileApp_appends
                    (setVizFilters (this st)
                       (Url.append (fst (size_param (this st) div))
                          (snd (size_param (this st) div)) u0))
                    (userAgent (host st)) (entropy (host st))) as [S [l A]].
      rewrite M in S, A. simpl in S, A. split.
      * apply S, setVizFilters_in_step, append_in_step.
      * rewrite A, setVizFilters_params. apply in_or_app. left.
        apply in_or_app. right. apply in_or_app. left.
        unfold in_context_params. rewrite F, O, I. simpl. left. reflexivity.
    + rewrite (renderViz_no_placeholder st R D) in C. simpl in C.
      exfalso. exact (not_own_extension _ _ C).
  - rewrite (renderViz_not_ready st R) in C. simpl in C.
    exfalso. exact (not_own_extension _ _ C).
Qed.

Lemma account_id_parameter_witness :
  exists u,
    "https://tableau.example.com/views/Backlog/Days?%3Asize=800%2C600&Account+ID=001x"
    = Url.toString u
    /\ query_in_step u
    /\ In ("Account ID", "001x") (Url.searchParams u).
Proof.
  apply (account_id_parameter (Sample.loaded Sample.config Sample.desktop)
           {| call_container := {| style_height := "600px"; offsetWidth := 800 |};
              call_url := "https://tableau.example.com/views/Backlog/Days?%3Asize=800%2C600&Account+ID=001x";
              call_options := derived_options (Sample.component Sample.config) |});
    reflexivity.
Defined.

(** C1, as stated, fails: the component below is Rendered after the
    script has loaded; a further [renderedCallback], with the
    configuration, the library flag and the filter value as they were,
    evaluates the constructor a second time and replaces [viz]. *)
Lemma second_render_constructs_again :
  let st1 := run [Connect; ScriptLoaded]
               (Sample.start Sample.config Sample.desktop) in
  let st2 := snd (renderedCallback st1) in
  viz (this st1) = Some 0%nat
  /\ List.length (vizCalls (host st1)) = 1%nat
  /\ api (this st2) = api (this st1)
  /\ isLibLoaded (this st2) = isLibLoaded (this st1)
  /\ advancedFilterValue (this st2) = advancedFilterValue (this st1)
  /\ viz (this st2) = Some 1%nat
  /\ List.length (vizCalls (host st2)) = 2%nat.
Proof.
  cbv zeta. repeat split; reflexivity.
Qed.

(** C1, amended: a render-capable callback re-runs the Ready checks,
    and whenever they pass and the placeholder is in the template it
    evaluates the viz constructor once more and stores the handle that
    comes back in [viz], whatever [viz] held before. *)
Theorem render_constructs_whenever_ready `{P : Platform}
    (st : St) (div : Container) :
  ready (this st) = true ->
  placeholder (host st) = Some div ->
  exists call,
    vizCalls (host (snd (renderedCallback st)))
    = (vizCalls (host st) ++ [call])%list
    /\ viz (this (snd (renderedCallback st)))
       = match tableau_Viz (vizCalls (host st)) call with
         | JS.Normal v => Some v
         | JS.Throw _ => viz (this st)
         end.
Proof.
  intros R D. unfold renderedCallback.
  destruct (renderViz_ready st div R D) as (u0 & u & e & _ & _ & C & _ & T).
  eexists. split; [exact C|]. rewrite T.
  destruct (tableau_Viz _ _); reflexivity.
Qed.

Lemma render_constructs_whenever_ready_witness :
  let st1 := run [Connect; ScriptLoaded]
               (Sample.start Sample.config Sample.desktop) in
  viz (this st1) = Some 0%nat
  /\ exists call,
       vizCalls (host (snd (renderedCallback st1)))
       = (vizCalls (host st1) ++ [call])%list
       /\ viz (this (snd (renderedCallback st1))) = Some 1%nat.
Proof.
  cbv zeta. split; [reflexivity|].
  destruct (render_constructs_whenever_ready
              (run [Connect; ScriptLoaded]
                 (Sample.start Sample.config Sample.desktop))
              {| style_height := "600px"; offsetWidth := 800 |})
    as (call & C & V); [reflexivity|reflexivity|].
  exists call. split; [exact C|exact V].
Defined.

(* ================================================================= *)
(** ** Late completions *)

(** [renderViz] does the same to a detached component as to an
    attached one. *)
Lemma renderViz_liveness `{P : Platform} (b : bool) (st : St) :
  renderViz (with_liveness b st)
  = (fst (renderViz st), with_liveness b (snd (renderViz st))).
Proof.
  destruct (ready (this st)) eqn:R.
  - destruct (ready_inv _ R) as (V & E & L & G & u0 & U).
    unfold renderViz. simpl this. rewrite V. simpl negb.
    rewrite E, L, G. simpl. rewrite U.
    destruct (placeholder (host st)) as [div|]; simpl; [|reflexivity].
    destruct (checkForMobileApp _ _ _) as [u e].
    destruct (tableau_Viz _ _); reflexivity.
  - rewrite (renderViz_not_ready st R).
    rewrite (renderViz_not_ready (with_liveness b st) R). reflexivity.
Qed.

Lemma renderViz_isLibLoaded `{P : Platform} (st : St) :
  isLibLoaded (this (snd (renderViz st))) = isLibLoaded (this st).
Proof.
  destruct (ready (this st)) eqn:R.
  - destruct (placeholder (host st)) as [div|] eqn:D.
    + destruct (renderViz_ready st div R D) as (u0 & u & e & _ & _ & _ & _ & T).
      rewrite T. destruct (tableau_Viz _ _); reflexivity.
    + rewrite (renderViz_no_placeholder st R D). reflexivity.
  - rewrite (renderViz_not_ready st R). simpl.
    destruct (validateInputs_cases (this st)) as [V|(m & _ & V)];
      rewrite V; reflexivity.
Qed.

(** C8, as stated, fails: the element below is taken out of the
    document while the script is still loading.  The late completion
    sets [isLibLoaded], resizes the placeholder and constructs a viz
    all the same; a late record does as much to [advancedFilterValue]. *)
Lemma late_completion_acts_on_detached_component :
  let st := run [Connect; Disconnect]
              (Sample.start Sample.config Sample.desktop) in
  let st' := snd (handle ScriptLoaded st) in
  let w := run [Connect; Disconnect]
             (Sample.start Sample.filtered Sample.desktop) in
  let w' := snd (handle (Wire None (Some Sample.emea)) w) in
  isConnected (host st) = false
  /\ isLibLoaded (this st) = false
  /\ isLibLoaded (this st') = true
  /\ viz (this st) = None
  /\ viz (this st') = Some 0%nat
  /\ placeholder (host st) = Some {| style_height := ""; offsetWidth := 800 |}
  /\ placeholder (host st')
     = Some {| style_height := "600px"; offsetWidth := 800 |}
  /\ isConnected (host w) = false
  /\ advancedFilterValue (this w) = JS.Undefined
  /\ advancedFilterValue (this w') = JS.Str "EMEA".
Proof.
  cbv zeta. repeat split; reflexivity.
Qed.

(* ================================================================= *)
(** ** Selections *)

Lemma published_app (a b : list Effect) :
  published (a ++ b) = (published a ++ published b)%list.
Proof.
  induction a as [|x a IH]; [reflexivity|].
  destruct x; simpl; rewrite IH; reflexivity.
Qed.

Lemma rename_target_table (name : string) :
  rename_target name = renamed rename_table name.
Proof. reflexivity. Qed.

(** C4: a selection on a worksheet publishes exactly one payload, whose
    [selectedTarget] is the worksheet name looked up in the rename
    table, the name itself when the table has no entry:
    ["BPDaysOfBacklog"] goes out as ["Breakpack"], ["Foo"] as ["Foo"]. *)
Theorem selection_publishes_renamed_target (ev : MarksEvent) (st : St) :
  published (trace (host (onMarksSelection ev st)))
  = (published (trace (host st))
     ++ [{| selectedTarget := renamed rename_table (worksheetName ev) |}])%list
  /\ renamed rename_table "BPDaysOfBacklog" = "Breakpack"
  /\ renamed rename_table "Foo" = "Foo".
Proof.
  split; [|split; reflexivity].
  rewrite <- rename_target_table.
  unfold onMarksSelection, fireLwcMarkEvent. simpl.
  destruct (publish_throws (host st)); simpl;
    rewrite !published_app; simpl; rewrite !app_nil_r; reflexivity.
Qed.

(* ================================================================= *)
(** ** Mobile detection *)

Lemma search_weaker {A B : Type} (p : string -> option A)
    (q : string -> option B) (s : string) :
  (forall t, p t = None -> q t = None) ->
  Text.search p s = None -> Text.search q s = None.
Proof.
  intro W. induction s as [|c s IH]; simpl.
  - destruct (p "") eqn:E; [discriminate|]. rewrite (W _ E). reflexivity.
  - destruct (p (String c s)) eqn:E; [discriminate|].
    rewrite (W _ E). exact IH.
Qed.

(** Without the text [uid_] there is no device id to extract. *)
Lemma no_uid_no_match (ua : string) :
  Text.includes "uid_" ua = false -> Text.deviceIdRegex_exec ua = None.
Proof.
  unfold Text.includes, Text.deviceIdRegex_exec. intro I.
  destruct (Text.search (Text.literal_at "uid_") ua) eqn:S; [discriminate I|].
  revert S. apply search_weaker. intro t.
  unfold Text.literal_at, Text.deviceIdRegex_at.
  destruct (String.prefix "uid_" t); [discriminate|reflexivity].
Qed.

Lemma toString16_digit (k : Z) :
  0 <= k < 16 ->
  exists c, toString16 k = String c "" /\ hex_digit c = true.
Proof.
  intro B.
  assert (C : k = 0 \/ k = 1 \/ k = 2 \/ k = 3 \/ k = 4 \/ k = 5 \/ k = 6
              \/ k = 7 \/ k = 8 \/ k = 9 \/ k = 10 \/ k = 11 \/ k = 12
              \/ k = 13 \/ k = 14 \/ k = 15) by lia.
  repeat (destruct C as [C|C]; [subst k; eexists; split; reflexivity|]).
  subst k; eexists; split; reflexivity.
Qed.

Lemma floor_of_quarter (r : Q) :
  (0 <= r)%Q -> (r < 1)%Q -> 0 <= Qfloor (r * inject_Z 4) < 4.
Proof.
  intros Lo Hi. split.
  - change 0 with (Qfloor 0). apply Qfloor_resp_le.
    apply Qmult_le_0_compat; [exact Lo|discriminate].
  - rewrite Zlt_Qlt.
    apply Qle_lt_trans with (r * inject_Z 4)%Q; [apply Qfloor_le|].
    destruct r as [a b]. unfold Qlt in *. simpl in *. lia.
Qed.

Lemma getRandomSymbol_x (e : Entropy) :
  exists c,
    fst (getRandomSymbol "x" e) = JS.Str (String c "")
    /\ hex_digit c = true
    /\ Math_random (snd (getRandomSymbol "x" e)) = Math_random e.
Proof.
  unfold getRandomSymbol. simpl.
  destruct (toString16_digit ((crypto_byte e (crypto_calls e) mod 256) mod 16))
    as (c & T & H).
  { apply Z.mod_pos_bound. lia. }
  exists c. rewrite T. repeat split. exact H.
Qed.

Lemma getRandomSymbol_y (e : Entropy) :
  unit_interval e ->
  exists c,
    fst (getRandomSymbol "y" e) = JS.Str (String c "")
    /\ y_digit c = true
    /\ Math_random (snd (getRandomSymbol "y" e)) = Math_random e.
Proof.
  intro U. unfold getRandomSymbol. simpl.
  destruct (U (Math_random_calls e)) as [Lo Hi].
  set (r := Math_random e (Math_random_calls e)) in *.
  change (Qnum r * 4 / Z.pos (Qden r * 1)) with (Qfloor (r * inject_Z 4)).
  pose proof (floor_of_quarter r Lo Hi) as B.
  assert (C : Qfloor (r * inject_Z 4) = 0 \/ Qfloor (r * inject_Z 4) = 1
              \/ Qfloor (r * inject_Z 4) = 2 \/ Qfloor (r * inject_Z 4) = 3)
    by lia.
  destruct C as [C|[C|[C|C]]]; rewrite C; eexists; repeat split; reflexivity.
Qed.

Lemma unit_interval_ext (e e' : Entropy) :
  Math_random e' = Math_random e -> unit_interval e -> unit_interval e'.
Proof.
  unfold unit_interval. intros E U i. rewrite E. apply U.
Qed.

(** Whatever the pattern, [replace_xy getRandomSymbol] fills it in
    character by character. *)
Lemma replace_xy_shape (pattern : string) :
  forall e, unit_interval e ->
    has_shape pattern (fst (replace_xy getRandomSymbol pattern e)) = true.
Proof.
  induction pattern as [|p pattern IH]; intros e U; [reflexivity|].
  simpl replace_xy.
  destruct (Ascii.eqb_spec p "x") as [X|NX].
  - subst p. simpl orb.
    destruct (getRandomSymbol_x e) as (c & V & H & M).
    destruct (getRandomSymbol "x" e) as [v e1]. simpl in V, M. subst v.
    specialize (IH e1 (unit_interval_ext _ _ M U)).
    destruct (replace_xy getRandomSymbol pattern e1) as [out e2].
    simpl in IH |- *. change (shape_char "x" c) with (hex_digit c).
    rewrite H, IH. reflexivity.
  - destruct (Ascii.eqb_spec p "y") as [Y|NY].
    + subst p. simpl orb.
      destruct (getRandomSymbol_y e U) as (c & V & H & M).
      destruct (getRandomSymbol "y" e) as [v e1]. simpl in V, M. subst v.
      specialize (IH e1 (unit_interval_ext _ _ M U)).
      destruct (replace_xy getRandomSymbol pattern e1) as [out e2].
      simpl in IH |- *. change (shape_char "y" c) with (y_digit c).
      rewrite H, IH. reflexivity.
    + simpl orb. specialize (IH e U).
      destruct (replace_xy getRandomSymbol pattern e) as [out e2].
      simpl in IH |- *. rewrite IH. unfold shape_char.
      destruct (Ascii.eqb_spec p "x"); [contradiction|].
      destruct (Ascii.eqb_spec p "y"); [contradiction|].
      rewrite Ascii.eqb_refl. reflexivity.
Qed.

Lemma generateRandomDeviceId_shape (e : Entropy) :
  unit_interval e -> uuid_shape (fst (generateRandomDeviceId e)) = true.
Proof. exact (replace_xy_shape _ e). Qed.

Lemma dice_unit_interval : unit_interval Sample.dice.
Proof.
  intro i. simpl.
  pose proof (Z.mod_pos_bound (Z.of_nat i) 4 eq_refl) as B.
  unfold Qle, Qlt. simpl. lia.
Qed.

(** C3, as stated, fails: the user agent below carries the marker and
    the token iPhone and no [uid_], yet iPad comes first in it and the
    device name follows the first token. *)
Lemma first_family_token_wins :
  Text.includes "SalesforceMobileSDK" Sample.ipad = true
  /\ Text.includes "iPhone" Sample.ipad = true
  /\ Text.includes "uid_" Sample.ipad = false
  /\ Url.searchParams (fst (checkForMobileApp Sample.view Sample.ipad Sample.dice))
     = [(":use_rt", "y"); (":client_id", "TableauVizLWC");
        (":device_id", "b05af49e-38d2-47c1-86b0-5af49e38d27c");
        (":device_name", "SFMobileApp_iPad")].
Proof.
  repeat split; reflexivity.
Qed.


(* ================================================================= *)
(** ** Validation, further *)

(** X1: [validateInputs] accepts, leaving the component as it is,
    exactly when the link parses, its protocol is [https:], its text
    without the origin does not begin with [/#/], and the two filter
    fields are both set or both unset. *)
Theorem validation_accepts_exactly `{P : Platform} (c : Component) :
  validateInputs c = (true, c) <->
  exists u,
    URL_new (JS.toString (vizUrl (api c))) = JS.Normal u
    /\ Url.protocol u = "https:"
    /\ Text.startsWith (Text.replace (Url.origin u) "" (Url.toString u)) "/#/"
       = false
    /\ JS.truthy (tabAdvancedFilter (api c))
       = JS.truthy (sfAdvancedFilter (api c)).
Proof.
  unfold validateInputs, validate_url.
  destruct (URL_new (JS.toString (vizUrl (api c)))) as [u|e].
  - destruct (String.eqb_spec (Url.protocol u) "https:") as [Pr|Pr]; simpl.
    + destruct (Text.startsWith _ "/#/") eqn:H; simpl.
      * split; [intro E; discriminate E|].
        intros (u' & E & _ & H' & _). injection E as <-.
        rewrite H in H'. discriminate H'.
      * destruct (JS.truthy (sfAdvancedFilter (api c))) eqn:S;
          destruct (JS.truthy (tabAdvancedFilter (api c))) eqn:T; simpl;
          split; intro E; try discriminate E;
          try (exists u; repeat split; assumption);
          try reflexivity;
          destruct E as (_ & _ & _ & _ & E); discriminate E.
    + split; [intro E; discriminate E|].
      intros (u' & E & Pr' & _). injection E as <-. contradiction.
  - split; [intro E; discriminate E|].
    intros (u' & E & _). discriminate E.
Qed.

Lemma validation_accepts_exactly_witness :
  validateInputs (Sample.component Sample.config)
  = (true, Sample.component Sample.config).
Proof.
  apply (proj2 (validation_accepts_exactly (Sample.component Sample.config))).
  exists Sample.view. repeat split; reflexivity.
Defined.

(** X2: whenever [validateInputs] rejects, all it changes is
    [errorMessage], which it sets to a message that is never empty: the
    HTTPS, [#] or filter-pair message, the message of the error that
    [new URL] threw, or ["Invalid URL"] when that one is empty.
    [render()] then picks the error template. *)
Theorem rejection_shows_the_error_template `{P : Platform} (c : Component) :
  fst (validateInputs c) = false ->
  exists m,
    snd (validateInputs c) = set_errorMessage m c
    /\ m <> ""
    /\ render (snd (validateInputs c)) = templateError
    /\ (m = https_message \/ m = hash_message \/ m = filter_pair_message
        \/ exists e,
             URL_new (JS.toString (vizUrl (api c))) = JS.Throw e
             /\ m = (if (JS.message e =? "")%string then "Invalid URL"
                     else JS.message e)).
Proof.
  intro F.
  assert (K : forall m, m <> "" ->
              render (set_errorMessage m c) = templateError).
  { intros m N. unfold render. rewrite (set_errorMessage_truthy m c N).
    reflexivity. }
  unfold validateInputs, validate_url in *.
  destruct (URL_new (JS.toString (vizUrl (api c)))) as [u|e].
  - destruct (String.eqb_spec (Url.protocol u) "https:") as [Pr|Pr]; simpl in *.
    + destruct (Text.startsWith _ "/#/"); simpl in *.
      * exists hash_message. repeat split; auto. discriminate.
      * destruct (_ || _); simpl in *; [|discriminate F].
        exists filter_pair_message. repeat split; auto. discriminate.
    + exists https_message. repeat split; auto. discriminate.
  - simpl in *.
    destruct (String.eqb_spec (JS.message e) "") as [E|N]; simpl.
    + exists "Invalid URL". repeat split; [discriminate|].
      right. right. right. exists e. split; [reflexivity|].
      rewrite E. reflexivity.
    + exists (JS.message e). repeat split; [exact N|apply K, N|].
      right. right. right. exists e. split; [reflexivity|].
      destruct (String.eqb_spec (JS.message e) ""); [contradiction|reflexivity].
Qed.

Lemma rejection_shows_the_error_template_witness :
  exists m,
    snd (validateInputs (Sample.component Sample.insecure))
    = set_errorMessage m (Sample.component Sample.insecure)
    /\ m <> ""
    /\ render (snd (validateInputs (Sample.component Sample.insecure)))
       = templateError
    /\ (m = https_message \/ m = hash_message \/ m = filter_pair_message
        \/ exists e,
             URL_new (JS.toString (vizUrl Sample.insecure)) = JS.Throw e
             /\ m = (if (JS.message e =? "")%string then "Invalid URL"
                     else JS.message e)).
Proof.
  apply (rejection_shows_the_error_template (Sample.component Sample.insecure)).
  reflexivity.
Defined.

(** X3: a secure link whose text after the origin begins with [/#/],
    the form the browser's address bar shows, is rejected with the
    message about [#], and [renderViz] stops there. *)
Theorem hash_path_is_rejected `{P : Platform} (st : St) (u : Url.t) :
  URL_new (JS.toString (vizUrl (api (this st)))) = JS.Normal u ->
  Url.protocol u = "https:" ->
  Text.startsWith (Text.replace (Url.origin u) "" (Url.toString u)) "/#/"
  = true ->
  validateInputs (this st) = (false, set_errorMessage hash_message (this st))
  /\ renderViz st
     = (JS.Normal tt, with_this (set_errorMessage hash_message (this st)) st).
Proof.
  intros Parsed Scheme Hash.
  assert (V : validateInputs (this st)
              = (false, set_errorMessage hash_message (this st))).
  { unfold validateInputs, validate_url. rewrite Parsed, Scheme, Hash.
    reflexivity. }
  split; [exact V|]. apply renderViz_rejected, V.
Qed.

Lemma hash_path_is_rejected_witness :
  validateInputs (Sample.component Sample.address_bar)
  = (false, set_errorMessage hash_message (Sample.component Sample.address_bar))
  /\ renderViz (Sample.start Sample.address_bar Sample.desktop)
     = (JS.Normal tt,
        with_this
          (set_errorMessage hash_message
             (this (Sample.start Sample.address_bar Sample.desktop)))
          (Sample.start Sample.address_bar Sample.desktop)).
Proof.
  apply (hash_path_is_rejected
           (Sample.start Sample.address_bar Sample.desktop)
           (Url.Make "https:" "https://tableau.example.com"
              "https://tableau.example.com/" None
              (Some "/site/sales/views/Backlog/Days") []));
    reflexivity.
Defined.

(* ================================================================= *)
(** ** Rendering, further *)

(** The whole of [renderViz] once every check has passed. *)
Lemma renderViz_ready_eq `{P : Platform} (st : St) (div : Container)
    (u0 u : Url.t) (e : Entropy) :
  ready (this st) = true ->
  placeholder (host st) = Some div ->
  URL_new (JS.toString (vizUrl (api (this st)))) = JS.Normal u0 ->
  checkForMobileApp
    (setVizFilters (this st)
       (Url.append (fst (size_param (this st) div))
          (snd (size_param (this st) div)) u0))
    (userAgent (host st)) (entropy (host st)) = (u, e) ->
  let call := {| call_container := resized (this st) div;
                 call_url := Url.toString u;
                 call_options := derived_options (this st) |} in
  let h := record_call call (touched (resized (this st) div) e (host st)) in
  renderViz st
  = match tableau_Viz (vizCalls (host st)) call with
    | JS.Throw error => (JS.Throw error, {| this := this st; host := h |})
    | JS.Normal v =>
        listenToMarksSelection {| this := set_viz v (this st); host := h |}
    end.
Proof.
  intros R D U M. destruct (ready_inv _ R) as (V & E & L & G & _).
  unfold renderViz. rewrite V. simpl negb.
  rewrite E, L, G. simpl. rewrite U, D. simpl.
  simpl in M. rewrite M. reflexivity.
Qed.

(** The constructor is evaluated only when every check has passed and
    the placeholder is there. *)
Lemma renderViz_changes_calls `{P : Platform} (st : St) :
  vizCalls (host (snd (renderViz st))) <> vizCalls (host st) ->
  ready (this st) = true /\ exists div, placeholder (host st) = Some div.
Proof.
  intro C. destruct (ready (this st)) eqn:R.
  - split; [reflexivity|].
    destruct (placeholder (host st)) as [div|] eqn:D; [exists div; reflexivity|].
    rewrite (renderViz_no_placeholder st R D) in C. exfalso. apply C. reflexivity.
  - rewrite (renderViz_not_ready st R) in C. exfalso. apply C. reflexivity.
Qed.

Lemma extension_differs {A : Type} (l : list A) (x : A) : (l ++ [x])%list <> l.
Proof. intro E. exact (not_own_extension l x (eq_sym E)). Qed.

(** X4: the viz constructor is evaluated only in a state that passes
    every Ready check and has the placeholder in its template; the main
    template is then the one shown, before and after, and
    [errorMessage] is not touched. *)
Theorem constructor_runs_only_when_ready `{P : Platform} (st : St) :
  vizCalls (host (snd (renderViz st))) <> vizCalls (host st) ->
  ready (this st) = true
  /\ (exists div, placeholder (host st) = Some div)
  /\ render (this st) = templateMain
  /\ render (this (snd (renderViz st))) = templateMain
  /\ errorMessage (this (snd (renderViz st))) = errorMessage (this st).
Proof.
  intro C. destruct (renderViz_changes_calls st C) as (R & div & D).
  destruct (ready_inv _ R) as (_ & E & _).
  destruct (renderViz_ready st div R D) as (u0 & u & e & _ & _ & _ & _ & T).
  assert (M : errorMessage (this (snd (renderViz st))) = errorMessage (this st)).
  { rewrite T. destruct (tableau_Viz _ _); reflexivity. }
  split; [exact R|]. split; [exists div; exact D|].
  unfold render. rewrite M, E. repeat split; reflexivity.
Qed.

Lemma constructor_runs_only_when_ready_witness :
  ready (this (Sample.loaded Sample.config Sample.desktop)) = true
  /\ (exists div,
        placeholder (host (Sample.loaded Sample.config Sample.desktop))
        = Some div)
  /\ render (this (Sample.loaded Sample.config Sample.desktop)) = templateMain
  /\ render (this (snd (renderViz (Sample.loaded Sample.config Sample.desktop))))
     = templateMain
  /\ errorMessage
       (this (snd (renderViz (Sample.loaded Sample.config Sample.desktop))))
     = errorMessage (this (Sample.loaded Sample.config Sample.desktop)).
Proof.
  apply (constructor_runs_only_when_ready
           (Sample.loaded Sample.config Sample.desktop)).
  simpl. discriminate.
Defined.

(** What [checkForMobileApp] appends: nothing without the marker, the
    four mobile parameters with it. *)
Lemma checkForMobileApp_params (u : Url.t) (ua : string) (e : Entropy) :
  exists mobile,
    Url.searchParams (fst (checkForMobileApp u ua e))
    = (Url.searchParams u ++ mobile)%list
    /\ ((Text.includes "SalesforceMobileSDK" ua = false /\ mobile = [])
        \/ (Text.includes "SalesforceMobileSDK" ua = true
            /\ map fst mobile = mobile_names)).
Proof.
  unfold checkForMobileApp.
  change (Text.mobileRegex_test ua)
    with (Text.includes "SalesforceMobileSDK" ua).
  destruct (Text.includes "SalesforceMobileSDK" ua); simpl.
  - destruct (match Text.deviceIdRegex_exec ua with
              | Some group1 => (group1, e)
              | None => generateRandomDeviceId e
              end) as [deviceId e']. simpl.
    eexists. split; [rewrite <- !app_assoc; reflexivity|].
    right. split; reflexivity.
  - exists []. split; [rewrite app_nil_r; reflexivity|].
    left. split; reflexivity.
Qed.

(** X6: what the constructor receives agrees with what was done to the
    placeholder: the options are the ones derived from the
    configuration, their height is the very string set as the
    placeholder's CSS height, their width is ["100%"], and the container
    passed is the placeholder of the template, as wide as it was. *)
Theorem placeholder_and_options_agree `{P : Platform}
    (st : St) (call : VizCall) :
  vizCalls (host (snd (renderViz st))) = (vizCalls (host st) ++ [call])%list ->
  call_options call = derived_options (this st)
  /\ style_height (call_container call) = VizOptions.height (call_options call)
  /\ VizOptions.width (call_options call) = "100%"
  /\ placeholder (host (snd (renderViz st))) = Some (call_container call)
  /\ exists div,
       placeholder (host st) = Some div
       /\ offsetWidth (call_container call) = offsetWidth div.
Proof.
  intro C.
  assert (N : vizCalls (host (snd (renderViz st))) <> vizCalls (host st)).
  { rewrite C. apply extension_differs. }
  destruct (renderViz_changes_calls st N) as (R & div & D).
  destruct (renderViz_ready st div R D) as (u0 & u & e & U & M & C' & _ & _).
  rewrite C' in C. apply app_inv_head in C. injection C as <-.
  split; [reflexivity|]. split; [reflexivity|]. split; [reflexivity|].
  split; [|exists div; split; [exact D|reflexivity]].
  rewrite (renderViz_ready_eq st div u0 u e R D U M).
  destruct (tableau_Viz _ _); reflexivity.
Qed.

Lemma placeholder_and_options_agree_witness :
  let call :=
    {| call_container := {| style_height := "600px"; offsetWidth := 800 |};
       call_url := "https://tableau.example.com/views/Backlog/Days?%3Asize=800%2C600&Account+ID=001x";
       call_options := VizOptions.Make true false "600px" "100%" |} in
  call_options call = derived_options (Sample.component Sample.config)
  /\ style_height (call_container call) = VizOptions.height (call_options call)
  /\ VizOptions.width (call_options call) = "100%"
  /\ placeholder (host (snd (renderViz (Sample.loaded Sample.config Sample.desktop))))
     = Some (call_container call)
  /\ exists div,
       placeholder (host (Sample.loaded Sample.config Sample.desktop)) = Some div
       /\ offsetWidth (call_container call) = offsetWidth div.
Proof.
  cbv zeta.
  apply (placeholder_and_options_agree
           (Sample.loaded Sample.config Sample.desktop)
           {| call_container := {| style_height := "600px"; offsetWidth := 800 |};
              call_url := "https://tableau.example.com/views/Backlog/Days?%3Asize=800%2C600&Account+ID=001x";
              call_options := VizOptions.Make true false "600px" "100%" |}).
  reflexivity.
Defined.

(** X7: when the constructor returns a viz, [renderViz] completes
    normally, stores that viz and registers the marks-selection
    listener on it, exactly once and on no other viz. *)
Theorem fresh_viz_gets_the_listener `{P : Platform}
    (st : St) (call : VizCall) (v : VizHandle) :
  vizCalls (host (snd (renderViz st))) = (vizCalls (host st) ++ [call])%list ->
  tableau_Viz (vizCalls (host st)) call = JS.Normal v ->
  fst (renderViz st) = JS.Normal tt
  /\ this (snd (renderViz st)) = set_viz v (this st)
  /\ trace (host (snd (renderViz st)))
     = (trace (host st)
        ++ [AddEventListener v MARKS_SELECTION;
            ConsoleLog (LogText "added event listener")])%list.
Proof.
  intros C T.
  assert (N : vizCalls (host (snd (renderViz st))) <> vizCalls (host st)).
  { rewrite C. apply extension_differs. }
  destruct (renderViz_changes_calls st N) as (R & div & D).
  destruct (renderViz_ready st div R D) as (u0 & u & e & U & M & C' & _ & _).
  rewrite C' in C. apply app_inv_head in C. injection C as <-.
  rewrite (renderViz_ready_eq st div u0 u e R D U M). cbv zeta.
  rewrite T. unfold listenToMarksSelection. simpl.
  rewrite <- app_assoc. repeat split; reflexivity.
Qed.

Lemma fresh_viz_gets_the_listener_witness :
  fst (renderViz (Sample.loaded Sample.config Sample.desktop)) = JS.Normal tt
  /\ this (snd (renderViz (Sample.loaded Sample.config Sample.desktop)))
     = set_viz 0%nat (this (Sample.loaded Sample.config Sample.desktop))
  /\ trace (host (snd (renderViz (Sample.loaded Sample.config Sample.desktop))))
     = [AddEventListener 0%nat MARKS_SELECTION;
        ConsoleLog (LogText "added event listener")].
Proof.
  apply (fresh_viz_gets_the_listener
           (Sample.loaded Sample.config Sample.desktop)
           {| call_container := {| style_height := "600px"; offsetWidth := 800 |};
              call_url := "https://tableau.example.com/views/Backlog/Days?%3Asize=800%2C600&Account+ID=001x";
              call_options := VizOptions.Make true false "600px" "100%" |}
           0%nat); reflexivity.
Defined.

(** X8: when the constructor throws, [renderViz] passes the error on,
    keeps the [viz] it had and registers no listener; the placeholder
    has been resized by then all the same. *)
Theorem failed_constructor_keeps_viz `{P : Platform}
    (st : St) (call : VizCall) (error : JS.error) :
  vizCalls (host (snd (renderViz st))) = (vizCalls (host st) ++ [call])%list ->
  tableau_Viz (vizCalls (host st)) call = JS.Throw error ->
  fst (renderViz st) = JS.Throw error
  /\ this (snd (renderViz st)) = this st
  /\ trace (host (snd (renderViz st))) = trace (host st)
  /\ placeholder (host (snd (renderViz st))) = Some (call_container call).
Proof.
  intros C T.
  assert (N : vizCalls (host (snd (renderViz st))) <> vizCalls (host st)).
  { rewrite C. apply extension_differs. }
  destruct (renderViz_changes_calls st N) as (R & div & D).
  destruct (renderViz_ready st div R D) as (u0 & u & e & U & M & C' & _ & _).
  rewrite C' in C. apply app_inv_head in C. injection C as <-.
  rewrite (renderViz_ready_eq st div u0 u e R D U M). cbv zeta.
  rewrite T. repeat split; reflexivity.
Qed.

Lemma failed_constructor_keeps_viz_witness :
  let st1 := snd (@renderViz Sample.strict
                    (Sample.loaded Sample.config Sample.desktop)) in
  viz (this st1) = Some 0%nat
  /\ fst (@renderViz Sample.strict st1)
     = JS.Throw (JS.Error "There is already a viz in this element")
  /\ this (snd (@renderViz Sample.strict st1)) = this st1
  /\ trace (host (snd (@renderViz Sample.strict st1))) = trace (host st1)
  /\ placeholder (host (snd (@renderViz Sample.strict st1)))
     = Some {| style_height := "600px"; offsetWidth := 800 |}.
Proof.
  cbv zeta. split; [reflexivity|].
  apply (@failed_constructor_keeps_viz Sample.strict
           (snd (@renderViz Sample.strict
                   (Sample.loaded Sample.config Sample.desktop)))
           {| call_container := {| style_height := "600px"; offsetWidth := 800 |};
              call_url := "https://tableau.example.com/views/Backlog/Days?%3Asize=800%2C600&Account+ID=001x";
              call_options := VizOptions.Make true false "600px" "100%" |});
    reflexivity.
Defined.

(* ================================================================= *)
(** ** What a run of the component keeps *)

Lemma validateInputs_frame `{P : Platform} (c : Component) :
  api (snd (validateInputs c)) = api c
  /\ viz (snd (validateInputs c)) = viz c
  /\ advancedFilterValue (snd (validateInputs c)) = advancedFilterValue c
  /\ isLibLoaded (snd (validateInputs c)) = isLibLoaded c
  /\ messageContext (snd (validateInputs c)) = messageContext c.
Proof.
  destruct (validateInputs_cases c) as [V|(m & _ & V)]; rewrite V;
    repeat split; reflexivity.
Qed.

(** [validateInputs] looks at the configuration only. *)
Lemma validateInputs_transport `{P : Platform} (c c2 : Component) :
  api c2 = api c ->
  (validateInputs c = (true, c) /\ validateInputs c2 = (true, c2))
  \/ exists m,
       m <> ""
       /\ validateInputs c = (false, set_errorMessage m c)
       /\ validateInputs c2 = (false, set_errorMessage m c2).
Proof.
  intro A. unfold validateInputs, validate_url. rewrite A.
  destruct (URL_new (JS.toString (vizUrl (api c)))) as [u|e].
  - destruct (negb (Url.protocol u =? "https:")%string).
    + right. exists https_message. repeat split. discriminate.
    + destruct (Text.startsWith _ "/#/").
      * right. exists hash_message. repeat split. discriminate.
      * destruct (_ || _).
        -- right. exists filter_pair_message. repeat split. discriminate.
        -- left. split; reflexivity.
  - right. simpl JS.truthy.
    destruct (String.eqb_spec (JS.message e) "") as [E|N]; simpl.
    + exists "Invalid URL". repeat split. discriminate.
    + exists (JS.message e). repeat split. exact N.
Qed.

(** What a halted [renderViz] leaves: the host as it was, the
    component as [validateInputs] left it. *)
Lemma renderViz_halted `{P : Platform} (st : St) :
  ready (this st) = false ->
  host (snd (renderViz st)) = host st
  /\ viz (this (snd (renderViz st))) = viz (this st)
  /\ (JS.truthy (errorMessage (this st)) = true ->
      JS.truthy (errorMessage (this (snd (renderViz st)))) = true).
Proof.
  intro R. rewrite (renderViz_not_ready st R). simpl.
  split; [reflexivity|].
  destruct (validateInputs_cases (this st)) as [V|(m & N & V)]; rewrite V; simpl.
  - split; [reflexivity|intro E; exact E].
  - split; [reflexivity|intros _].
    destruct (String.eqb_spec m ""); [contradiction|reflexivity].
Qed.

Lemma error_not_ready `{P : Platform} (c : Component) :
  JS.truthy (errorMessage c) = true -> ready c = false.
Proof.
  intro E. unfold ready.
  destruct (validateInputs_cases c) as [V|(m & _ & V)]; rewrite V; simpl.
  - rewrite E. reflexivity.
  - reflexivity.
Qed.

Lemma not_loaded_not_ready `{P : Platform} (c : Component) :
  isLibLoaded c = false -> ready c = false.
Proof.
  intro L. unfold ready.
  destruct (validateInputs_cases c) as [V|(m & _ & V)]; rewrite V; simpl.
  - rewrite L. destruct (JS.truthy (errorMessage c)); reflexivity.
  - reflexivity.
Qed.

(** [renderViz] writes [viz] and [errorMessage] and nothing else of
    the component. *)
Lemma renderViz_this_frame `{P : Platform} (st : St) :
  api (this (snd (renderViz st))) = api (this st)
  /\ messageContext (this (snd (renderViz st))) = messageContext (this st)
  /\ isLibLoaded (this (snd (renderViz st))) = isLibLoaded (this st)
  /\ advancedFilterValue (this (snd (renderViz st)))
     = advancedFilterValue (this st).
Proof.
  destruct (ready (this st)) eqn:R.
  - destruct (placeholder (host st)) as [div|] eqn:D.
    + destruct (renderViz_ready st div R D) as (u0 & u & e & _ & _ & _ & _ & T).
      rewrite T. destruct (tableau_Viz _ _); repeat split; reflexivity.
    + rewrite (renderViz_no_placeholder st R D). repeat split; reflexivity.
  - rewrite (renderViz_not_ready st R). simpl.
    destruct (validateInputs_frame (this st)) as (A & _ & F & L & M).
    repeat split; assumption.
Qed.

(** One action of the host: what it does to the fields the class only
    reads, and to [isLibLoaded]. *)
Lemma act_frame `{P : Platform} (a : HostAction) (st : St) :
  api (this (act a st))
  = match a with Configure c => c | Fire _ => api (this st) end
  /\ messageContext (this (act a st)) = messageContext (this st)
  /\ isLibLoaded (this (act a st)) = isLibLoaded (this st) || is_ScriptLoaded a.
Proof.
  destruct a as [ev|cfg]; [|simpl; rewrite orb_false_r; repeat split; reflexivity].
  destruct ev as [| |reason| |error data| |ev]; simpl;
    rewrite ?orb_false_r, ?orb_true_r; try (repeat split; reflexivity).
  - unfold connectedCallback_resume.
    destruct (renderViz_this_frame
                (with_this (set_isLibLoaded true (this st)) st)) as (A & M & L & _).
    rewrite A, M, L. repeat split; reflexivity.
  - unfold renderedCallback.
    destruct (renderViz_this_frame st) as (A & M & L & _).
    repeat split; assumption.
  - unfold getRecord. destruct data as [d|].
    + destruct (JS.strict_equal _ _); [repeat split; reflexivity|].
      match goal with |- context [renderViz ?s] =>
        destruct (renderViz_this_frame s) as (A & M & L & _) end.
      rewrite A, M, L. repeat split; reflexivity.
    + destruct error; repeat split; reflexivity.
Qed.

(** One action on a component that cannot render: nothing is built. *)
Lemma act_builds_nothing `{P : Platform} (a : HostAction) (st : St) :
  (forall c, api c = api (this st) \/ (exists cfg, a = Configure cfg) ->
             errorMessage c = errorMessage (this st)
             \/ JS.truthy (errorMessage c) = true ->
             isLibLoaded c = isLibLoaded (this st)
             \/ (isLibLoaded c = true /\ is_ScriptLoaded a = true) ->
             ready c = false) ->
  vizCalls (host (act a st)) = vizCalls (host st)
  /\ viz (this (act a st)) = viz (this st).
Proof.
  intro B.
  destruct a as [ev|cfg]; [|split; reflexivity].
  destruct ev as [| |reason| |error data| |ev]; simpl;
    try (split; reflexivity).
  - unfold connectedCallback_resume.
    match goal with |- context [renderViz ?s] =>
      destruct (renderViz_halted s) as (H & V & _) end.
    { apply B; simpl; auto. }
    rewrite H, V. split; reflexivity.
  - unfold renderedCallback.
    destruct (renderViz_halted st) as (H & V & _).
    { apply B; auto. }
    rewrite H, V. split; reflexivity.
  - unfold getRecord. destruct data as [d|].
    + destruct (JS.strict_equal _ _); [split; reflexivity|].
      match goal with |- context [renderViz ?s] =>
        destruct (renderViz_halted s) as (H & V & _) end.
      { apply B; simpl; auto. }
      rewrite H, V. split; reflexivity.
    + destruct error; split; reflexivity.
  - destruct (publish_throws (host st)); split; reflexivity.
Qed.

Lemma act_keeps_error `{P : Platform} (a : HostAction) (st : St) :
  JS.truthy (errorMessage (this st)) = true ->
  JS.truthy (errorMessage (this (act a st))) = true.
Proof.
  intro E.
  destruct a as [ev|cfg]; [|exact E].
  destruct ev as [| |reason| |error data| |ev]; simpl; try exact E.
  - unfold connectedCallback_resume.
    match goal with |- context [renderViz ?s] =>
      destruct (renderViz_halted s) as (_ & _ & K) end.
    { apply error_not_ready. exact E. }
    apply K. exact E.
  - unfold renderedCallback.
    destruct (renderViz_halted st (error_not_ready _ E)) as (_ & _ & K).
    apply K. exact E.
  - unfold getRecord. destruct data as [d|].
    + destruct (JS.strict_equal _ _); [reflexivity|].
      match goal with |- context [renderViz ?s] =>
        destruct (renderViz_halted s) as (_ & _ & K) end.
      { apply error_not_ready. exact E. }
      apply K. exact E.
    + destruct error; [reflexivity|exact E].
Qed.

(** X9: an error is for good.  Once [errorMessage] is set, whatever the
    runtime fires and however the owner rewrites the configuration
    afterwards, [errorMessage] stays set, the error template stays the
    one shown, and no viz is constructed or stored. *)
Theorem errors_are_sticky `{P : Platform} (acts : list HostAction) (st : St) :
  JS.truthy (errorMessage (this st)) = true ->
  JS.truthy (errorMessage (this (run_host acts st))) = true
  /\ render (this (run_host acts st)) = templateError
  /\ vizCalls (host (run_host acts st)) = vizCalls (host st)
  /\ viz (this (run_host acts st)) = viz (this st).
Proof.
  revert st. induction acts as [|a acts IH]; intros st E.
  - simpl. unfold render. rewrite E. repeat split; reflexivity.
  - simpl. destruct (IH (act a st) (act_keeps_error a st E)) as (E' & T & C & V).
    destruct (act_builds_nothing a st) as (C1 & V1).
    { intros c _ [M|M] _; apply error_not_ready; [rewrite M; exact E|exact M]. }
    rewrite C, V, C1, V1. repeat split; assumption.
Qed.

Lemma errors_are_sticky_witness :
  let st := snd (renderViz (Sample.loaded Sample.insecure Sample.desktop)) in
  let acts := [Configure Sample.config; Fire Rendered; Fire ScriptLoaded;
               Fire (@Wire Sample.platform None (Some Sample.emea)); Fire Rendered] in
  JS.truthy (errorMessage (this (run_host acts st))) = true
  /\ render (this (run_host acts st)) = templateError
  /\ vizCalls (host (run_host acts st)) = vizCalls (host st)
  /\ viz (this (run_host acts st)) = viz (this st).
Proof.
  cbv zeta.
  apply (errors_are_sticky
           [Configure Sample.config; Fire Rendered; Fire ScriptLoaded;
            Fire (@Wire Sample.platform None (Some Sample.emea)); Fire Rendered]
           (snd (renderViz (Sample.loaded Sample.insecure Sample.desktop)))).
  reflexivity.
Defined.

(** X10: nothing is built before the script has loaded.  From a state
    with [isLibLoaded] false, no sequence of events and rewritten
    configurations that lacks the completion of the script load
    constructs a viz or stores one. *)
Theorem nothing_is_built_before_the_script_loads `{P : Platform}
    (acts : list HostAction) (st : St) :
  isLibLoaded (this st) = false ->
  existsb is_ScriptLoaded acts = false ->
  isLibLoaded (this (run_host acts st)) = false
  /\ vizCalls (host (run_host acts st)) = vizCalls (host st)
  /\ viz (this (run_host acts st)) = viz (this st).
Proof.
  revert st. induction acts as [|a acts IH]; intros st L N.
  - repeat split. exact L.
  - simpl in N. apply orb_false_elim in N. destruct N as [Na N].
    destruct (act_frame a st) as (_ & _ & L1). rewrite L, Na in L1.
    simpl. destruct (IH (act a st) L1 N) as (L' & C & V).
    destruct (act_builds_nothing a st) as (C1 & V1).
    { intros c _ _ [M|[_ M]]; [|rewrite Na in M; discriminate M].
      apply not_loaded_not_ready. rewrite M. exact L. }
    rewrite C, V, C1, V1. repeat split. exact L'.
Qed.

Lemma nothing_is_built_before_the_script_loads_witness :
  let acts := [Fire Connect; Fire Rendered;
               Fire (@Wire Sample.platform None (Some Sample.emea)); Fire Rendered] in
  let st := Sample.start Sample.filtered Sample.desktop in
  isLibLoaded (this (run_host acts st)) = false
  /\ vizCalls (host (run_host acts st)) = vizCalls (host st)
  /\ viz (this (run_host acts st)) = viz (this st).
Proof.
  cbv zeta.
  apply (nothing_is_built_before_the_script_loads
           [Fire Connect; Fire Rendered;
            Fire (@Wire Sample.platform None (Some Sample.emea)); Fire Rendered]
           (Sample.start Sample.filtered Sample.desktop));
    reflexivity.
Defined.

(** X11: the class only reads its public properties and its message
    context.  After any run, the configuration is the one the owner
    wrote last (the initial one if it wrote none), [messageContext] is
    what it was, and [isLibLoaded] is true exactly if it was true
    before or the script load completed during the run. *)
Theorem class_only_reads_its_inputs `{P : Platform}
    (acts : list HostAction) (st : St) :
  api (this (run_host acts st)) = last_configured acts (api (this st))
  /\ messageContext (this (run_host acts st)) = messageContext (this st)
  /\ isLibLoaded (this (run_host acts st))
     = isLibLoaded (this st) || existsb is_ScriptLoaded acts.
Proof.
  revert st. induction acts as [|a acts IH]; intro st.
  - simpl. rewrite orb_false_r. repeat split; reflexivity.
  - simpl. destruct (IH (act a st)) as (A & M & L).
    destruct (act_frame a st) as (A1 & M1 & L1).
    rewrite A, M, L, A1, M1, L1, orb_assoc.
    repeat split.
Qed.

(** X12: while a Ready check fails, callbacks are idempotent: a second
    [renderViz] right after the first completes normally and changes
    nothing at all. *)
Theorem halted_render_is_idempotent `{P : Platform} (st : St) :
  ready (this st) = false ->
  renderViz (snd (renderViz st)) = (JS.Normal tt, snd (renderViz st)).
Proof.
  intro R. rewrite (renderViz_not_ready st R). simpl snd.
  destruct (validateInputs_frame (this st)) as (A & _).
  destruct (validateInputs_transport (this st) _ A) as [[V V2]|(m & _ & V & V2)].
  - rewrite V. simpl snd.
    rewrite (renderViz_not_ready (with_this (this st) st) R).
    simpl this. rewrite V. reflexivity.
  - rewrite V in V2 |- *. simpl snd in *.
    rewrite (renderViz_rejected
               (with_this (set_errorMessage m (this st)) st) _ V2).
    reflexivity.
Qed.

Lemma halted_render_is_idempotent_witness :
  renderViz (snd (renderViz (Sample.start Sample.insecure Sample.desktop)))
  = (JS.Normal tt,
     snd (renderViz (Sample.start Sample.insecure Sample.desktop))).
Proof.
  apply (halted_render_is_idempotent
           (Sample.start Sample.insecure Sample.desktop)).
  reflexivity.
Defined.

(** X13: the script load and the record may complete in either order.
    For a component that filters on a record field, is not loaded yet
    and has no filter value yet, a record whose field is defined
    followed by the script, or the script followed by that record, lead
    to one and the same state. *)
Theorem load_and_record_commute `{P : Platform} (st : St)
    (error : option WireError) (d : RecordData) :
  isLibLoaded (this st) = false ->
  is_set (sfAdvancedFilter (api (this st))) ->
  advancedFilterValue (this st) = JS.Undefined ->
  getFieldValue d (sfAdvancedFilter (api (this st))) <> JS.Undefined ->
  run [ScriptLoaded; Wire error (Some d)] st
  = run [Wire error (Some d); ScriptLoaded] st.
Proof.
  unfold is_set. intros L S F D.
  assert (D' : JS.strict_equal
                 (getFieldValue d (sfAdvancedFilter (api (this st))))
                 JS.Undefined = false).
  { destruct (JS.strict_equal _ JS.Undefined) eqn:E; [|reflexivity].
    apply strict_equal_undefined in E. contradiction. }
  set (v := getFieldValue d (sfAdvancedFilter (api (this st)))) in *.
  (* the script first: the filter gate halts the render *)
  assert (RA : ready (set_isLibLoaded true (this st)) = false).
  { unfold ready.
    destruct (validateInputs_cases (set_isLibLoaded true (this st)))
      as [V|(m & _ & V)]; rewrite V; simpl; [|reflexivity].
    rewrite S, F. simpl. apply andb_false_r. }
  (* the record first: the missing script halts the render *)
  assert (RB : ready (set_advancedFilterValue v (this st)) = false).
  { apply not_loaded_not_ready. exact L. }
  assert (GR : forall s,
             JS.strict_equal
               (getFieldValue d (sfAdvancedFilter (api (this s))))
               JS.Undefined = false ->
             getRecord error (Some d) s
             = renderViz
                 (with_this
                    (set_advancedFilterValue
                       (getFieldValue d (sfAdvancedFilter (api (this s))))
                       (this s)) s)).
  { intros s E. unfold getRecord.
    cbn [advancedFilterValue set_advancedFilterValue]. rewrite E. reflexivity. }
  change (snd (getRecord error (Some d) (snd (connectedCallback_resume st)))
          = snd (connectedCallback_resume (snd (getRecord error (Some d) st)))).
  rewrite (GR st D'). fold v.
  rewrite (renderViz_not_ready
             (with_this (set_advancedFilterValue v (this st)) st) RB).
  unfold connectedCallback_resume.
  rewrite (renderViz_not_ready
             (with_this (set_isLibLoaded true (this st)) st) RA).
  cbn [snd this with_this host].
  destruct (validateInputs_transport (this st)
              (set_isLibLoaded true (this st)) eq_refl)
    as [[V VA]|(m & _ & V & VA)];
    destruct (validateInputs_transport (this st)
                (set_advancedFilterValue v (this st)) eq_refl)
      as [[V' VB]|(m' & _ & V' & VB)];
    rewrite VA, VB; cbn [snd].
  - rewrite GR; [reflexivity|exact D'].
  - rewrite V in V'. discriminate V'.
  - rewrite V in V'. discriminate V'.
  - rewrite V in V'. injection V' as V'.
    subst m'. rewrite GR; [reflexivity|exact D'].
Qed.

Lemma load_and_record_commute_witness :
  run [ScriptLoaded; @Wire Sample.platform None (Some Sample.emea)]
    (Sample.start Sample.filtered Sample.desktop)
  = run [@Wire Sample.platform None (Some Sample.emea); ScriptLoaded]
      (Sample.start Sample.filtered Sample.desktop)
  /\ map call_url
       (vizCalls
          (host (run [@Wire Sample.platform None (Some Sample.emea);
                      ScriptLoaded]
                   (Sample.start Sample.filtered Sample.desktop))))
     = ["https://tableau.example.com/views/Backlog/Days?%3Asize=800%2C600&Region=EMEA"].
Proof.
  split; [|reflexivity].
  apply (@load_and_record_commute Sample.platform
           (Sample.start Sample.filtered Sample.desktop) None Sample.emea);
    try reflexivity.
  simpl. discriminate.
Defined.

(* ================================================================= *)
(** ** The record wire *)

(** An accepted configuration has both filter fields set or neither. *)
Lemma accepted_pair `{P : Platform} (c : Component) :
  validateInputs c = (true, c) ->
  JS.truthy (tabAdvancedFilter (api c)) = JS.truthy (sfAdvancedFilter (api c)).
Proof.
  unfold validateInputs. destruct (validate_url c); [|discriminate].
  destruct (JS.truthy (sfAdvancedFilter (api c)));
    destruct (JS.truthy (tabAdvancedFilter (api c))); simpl;
    intro E; try reflexivity; discriminate E.
Qed.

(** X15: a failed delivery shows the error template.  When the wire
    delivers an error and no record, or a record in which the field is
    undefined, [getRecord] completes normally, records a message,
    leaves the host and [viz] alone, and [render()] picks the error
    template. *)
Theorem wire_failure_shows_the_error_template `{P : Platform} (st : St)
    (error : option WireError) (data : option RecordData) :
  (data = None /\ error <> None)
  \/ (exists d, data = Some d
                /\ getFieldValue d (sfAdvancedFilter (api (this st)))
                   = JS.Undefined) ->
  fst (getRecord error data st) = JS.Normal tt
  /\ render (this (snd (getRecord error data st))) = templateError
  /\ host (snd (getRecord error data st)) = host st
  /\ viz (this (snd (getRecord error data st))) = viz (this st)
  /\ exists m,
       errorMessage (this (snd (getRecord error data st))) = JS.Str m
       /\ (String.prefix "Failed to retrieve record data: " m = true
           \/ m = ("Failed to retrieve value for field "
                   ++ JS.toString (sfAdvancedFilter (api (this st))))%string).
Proof.
  intros [[N E]|(d & N & U)]; subst data; unfold getRecord.
  - destruct error as [e|]; [|contradiction].
    simpl. repeat split. eexists. split; [reflexivity|].
    left. simpl. destruct (String.concat "," (reduceErrors e)); reflexivity.
  - cbn [advancedFilterValue set_advancedFilterValue]. rewrite U.
    simpl. repeat split. eexists. split; [reflexivity|].
    right. reflexivity.
Qed.

Lemma wire_failure_shows_the_error_template_witness :
  render
    (this (snd (@getRecord Sample.platform None (Some [("Account.Name", JS.Str "Acme")])
                  (Sample.loaded Sample.filtered Sample.desktop))))
  = templateError
  /\ errorMessage
       (this (snd (@getRecord Sample.platform None (Some [("Account.Name", JS.Str "Acme")])
                     (Sample.loaded Sample.filtered Sample.desktop))))
     = JS.Str "Failed to retrieve value for field Account.Region__c".
Proof.
  destruct (@wire_failure_shows_the_error_template Sample.platform
              (Sample.loaded Sample.filtered Sample.desktop) None
              (Some [("Account.Name", JS.Str "Acme")]))
    as (_ & T & _ & _ & m & M & _).
  - right. exists [("Account.Name", JS.Str "Acme")]. split; reflexivity.
  - split; [exact T|reflexivity].
Defined.

(* ================================================================= *)
(** ** Selections, further *)

Lemma dispatched_app (a b : list Effect) :
  dispatched (a ++ b) = (dispatched a ++ dispatched b)%list.
Proof.
  induction a as [|x a IH]; [reflexivity|].
  destruct x; simpl; rewrite IH; reflexivity.
Qed.

(** X16: a selection touches nothing but the trace.  [onMarksSelection]
    leaves the component, the viz calls, the placeholder and the random
    source as they were, and raises exactly one local event, of type
    [mark_fired], whose detail is the very target it publishes. *)
Theorem selection_raises_the_local_event (ev : MarksEvent) (st : St) :
  this (onMarksSelection ev st) = this st
  /\ vizCalls (host (onMarksSelection ev st)) = vizCalls (host st)
  /\ placeholder (host (onMarksSelection ev st)) = placeholder (host st)
  /\ entropy (host (onMarksSelection ev st)) = entropy (host st)
  /\ dispatched (trace (host (onMarksSelection ev st)))
     = (dispatched (trace (host st))
        ++ [("mark_fired", renamed rename_table (worksheetName ev))])%list
  /\ map selectedTarget (published (trace (host (onMarksSelection ev st))))
     = (map selectedTarget (published (trace (host st)))
        ++ [renamed rename_table (worksheetName ev)])%list.
Proof.
  rewrite <- rename_target_table.
  unfold onMarksSelection, fireLwcMarkEvent. simpl.
  destruct (publish_throws (host st)); simpl;
    rewrite !dispatched_app, !published_app, !map_app; simpl;
    rewrite !app_nil_r; repeat split; reflexivity.
Qed.

(** X17: a raw worksheet name of the rename table is never what goes
    out: the renamed target is none of the table's keys, and renaming
    it once more changes nothing. *)
Theorem renamed_target_is_never_raw (name : string) :
  ~ In (rename_target name) (map fst rename_table)
  /\ rename_target (rename_target name) = rename_target name.
Proof.
  unfold rename_target.
  destruct (String.eqb_spec name "IBDaysOfBacklog (2)") as [E1|N1].
  { split; [|reflexivity]. simpl.
    intros [E|[E|[E|[]]]]; discriminate E. }
  destruct (String.eqb_spec name "BPDaysOfBacklog") as [E2|N2].
  { split; [|reflexivity]. simpl.
    intros [E|[E|[E|[]]]]; discriminate E. }
  destruct (String.eqb_spec name "FC.DOB") as [E3|N3].
  { split; [|reflexivity]. simpl.
    intros [E|[E|[E|[]]]]; discriminate E. }
  split.
  - simpl. intros [E|[E|[E|[]]]]; symmetry in E; contradiction.
  - destruct (String.eqb_spec name "IBDaysOfBacklog (2)"); [contradiction|].
    destruct (String.eqb_spec name "BPDaysOfBacklog"); [contradiction|].
    destruct (String.eqb_spec name "FC.DOB"); [contradiction|].
    reflexivity.
Qed.

Lemma deliver_last (older : list Payload) (p : Payload) (s : Subscriber.t) :
  Subscriber.deliver (older ++ [p]) s
  = Subscriber.handleMessage p (Subscriber.deliver older s).
Proof.
  unfold Subscriber.deliver. rewrite fold_left_app. reflexivity.
Qed.

Lemma deliver_subscription (messages : list Payload) (s : Subscriber.t) :
  Subscriber.subscription (Subscriber.deliver messages s)
  = Subscriber.subscription s.
Proof.
  revert s. induction messages as [|[t] ms IH]; intro s; [reflexivity|].
  simpl. unfold Subscriber.deliver in IH. rewrite IH. reflexivity.
Qed.

(** X18: what a subscriber ends up with.  Once every payload published
    so far has gone through [handleMessage], the one of this selection
    last, the subscriber's [selectedTarget] is the renamed name of the
    worksheet selected; a click in the publisher component leaves it at
    the label clicked, unrenamed.  The handler never touches
    [subscription]. *)
Theorem subscriber_hears_the_renamed_target (ev : MarksEvent) (st : St)
    (s : Subscriber.t) (ctx : option MessageContext) (label : string) :
  Subscriber.selectedTarget
    (Subscriber.deliver (published (trace (host (onMarksSelection ev st)))) s)
  = JS.Str (renamed rename_table (worksheetName ev))
  /\ Subscriber.subscription
       (Subscriber.deliver (published (trace (host (onMarksSelection ev st)))) s)
     = Subscriber.subscription s
  /\ Subscriber.selectedTarget
       (Subscriber.deliver
          (published (trace (host st) ++ [handleClick ctx label])) s)
     = JS.Str label.
Proof.
  split; [|split].
  - assert (E : published (trace (host (onMarksSelection ev st)))
                = (published (trace (host st))
                   ++ [{| selectedTarget :=
                            renamed rename_table (worksheetName ev) |}])%list).
    { rewrite <- rename_target_table.
      unfold onMarksSelection, fireLwcMarkEvent. simpl.
      destruct (publish_throws (host st)); simpl;
        rewrite !published_app; simpl; rewrite !app_nil_r; reflexivity. }
    rewrite E, deliver_last. reflexivity.
  - apply deliver_subscription.
  - rewrite published_app. simpl. rewrite deliver_last. reflexivity.
Qed.

(* ================================================================= *)
(** ** Mobile detection, further *)

(** A match of an unanchored pattern sits at some position. *)
Lemma search_sound {A : Type} (p : string -> option A) (s : string) (a : A) :
  Text.search p s = Some a -> exists pre t, s = (pre ++ t)%string /\ p t = Some a.
Proof.
  induction s as [|c s IH]; simpl.
  - destruct (p "") eqn:E; [|discriminate].
    intro H. injection H as ->. exists "", "". split; [reflexivity|exact E].
  - destruct (p (String c s)) eqn:E.
    + intro H. injection H as ->. exists "", (String c s).
      split; [reflexivity|exact E].
    + intro H. destruct (IH H) as (pre & t & -> & T).
      exists (String c pre), t. split; [reflexivity|exact T].
Qed.

Lemma search_here {A : Type} (p : string -> option A) (s : string) (a : A) :
  p s = Some a -> Text.search p s = Some a.
Proof. intro E. destruct s; simpl; rewrite E; reflexivity. Qed.

Lemma prefix_split (p t : string) :
  String.prefix p t = true -> t = (p ++ Text.drop (String.length p) t)%string.
Proof.
  revert t. induction p as [|a p IH]; intros t H; [destruct t; reflexivity|].
  destruct t as [|b t]; [discriminate H|]. simpl in H.
  destruct (ascii_dec a b) as [->|_]; [|discriminate H].
  simpl. rewrite <- (IH t H). reflexivity.
Qed.

Lemma prefix_append (p t : string) : String.prefix p (p ++ t) = true.
Proof.
  induction p as [|a p IH]; [destruct t; reflexivity|].
  simpl. destruct (ascii_dec a a) as [_|N]; [exact IH|contradiction].
Qed.

Lemma takeWhile_split (f : ascii -> bool) (s : string) :
  exists post,
    s = (Text.takeWhile f s ++ post)%string
    /\ all_chars f (Text.takeWhile f s) = true
    /\ match post with
       | EmptyString => True
       | String c _ => f c = false
       end.
Proof.
  induction s as [|c s (post & S & A & E)]; simpl.
  - exists "". repeat split.
  - destruct (f c) eqn:F.
    + exists post. simpl. rewrite F, A. rewrite <- S. repeat split. exact E.
    + exists (String c s). repeat split. exact F.
Qed.

Lemma takeWhile_token (f : ascii -> bool) (run post : string) :
  all_chars f run = true ->
  match post with
  | EmptyString => True
  | String c _ => f c = false
  end ->
  Text.takeWhile f (run ++ post) = run.
Proof.
  intros A E. induction run as [|c run IH]; simpl in *.
  - destruct post as [|c post]; [reflexivity|]. simpl. rewrite E. reflexivity.
  - apply andb_prop in A. destruct A as [F A]. rewrite F, (IH A). reflexivity.
Qed.

Lemma ends_token_spec (post : string) :
  ends_token post = true <->
  match post with
  | EmptyString => True
  | String c _ => Text.uid_char c = false
  end.
Proof.
  destruct post as [|c post]; simpl; [tauto|].
  destruct (Text.uid_char c); simpl; split; intro H;
    try reflexivity; try discriminate H.
Qed.

(** X19: a device id found in the user agent is used as it stands.
    When the marker is there and the pattern [uid_([\w|-]+)] matches,
    the id is a non-empty run of word characters, [|] and [-] that
    follows [uid_] in the user agent and ends where such characters end;
    it becomes the [:device_id] parameter, and no random value is
    drawn. *)
Theorem found_uid_is_used_as_it_stands (u : Url.t) (ua id : string)
    (e : Entropy) :
  Text.includes "SalesforceMobileSDK" ua = true ->
  Text.deviceIdRegex_exec ua = Some id ->
  (exists pre post,
      ua = (pre ++ "uid_" ++ id ++ post)%string /\ ends_token post = true)
  /\ id <> ""
  /\ all_chars Text.uid_char id = true
  /\ In (":device_id", id) (Url.searchParams (fst (checkForMobileApp u ua e)))
  /\ snd (checkForMobileApp u ua e) = e.
Proof.
  intros Marker Match.
  assert (Tok : (exists pre post,
                    ua = (pre ++ "uid_" ++ id ++ post)%string
                    /\ ends_token post = true)
                /\ id <> "" /\ all_chars Text.uid_char id = true).
  { destruct (search_sound _ _ _ Match) as (pre & t & -> & At).
    unfold Text.deviceIdRegex_at in At.
    destruct (String.prefix "uid_" t) eqn:Pre; [|discriminate At].
    apply prefix_split in Pre. simpl String.length in Pre.
    destruct (takeWhile_split Text.uid_char (Text.drop 4 t))
      as (post & S & A & E).
    destruct (Text.takeWhile Text.uid_char (Text.drop 4 t)) as [|c run] eqn:W;
      [discriminate At|].
    injection At as <-.
    split; [|split; [discriminate|exact A]].
    exists pre, post. split.
    - rewrite Pre at 1. rewrite S at 1. reflexivity.
    - apply ends_token_spec. exact E. }
  destruct Tok as (Where & NonEmpty & Chars).
  split; [exact Where|]. split; [exact NonEmpty|]. split; [exact Chars|].
  unfold checkForMobileApp.
  change (Text.mobileRegex_test ua)
    with (Text.includes "SalesforceMobileSDK" ua).
  rewrite Marker, Match. simpl.
  split; [|reflexivity].
  apply in_or_app. left. apply in_or_app. right. left. reflexivity.
Qed.

Lemma found_uid_is_used_as_it_stands_witness :
  (exists pre post,
      Sample.android = (pre ++ "uid_" ++ "3f9a-77c1|b2" ++ post)%string
      /\ ends_token post = true)
  /\ "3f9a-77c1|b2" <> ""
  /\ all_chars Text.uid_char "3f9a-77c1|b2" = true
  /\ In (":device_id", "3f9a-77c1|b2")
       (Url.searchParams
          (fst (checkForMobileApp Sample.view Sample.android Sample.dice)))
  /\ snd (checkForMobileApp Sample.view Sample.android Sample.dice)
     = Sample.dice.
Proof.
  apply (found_uid_is_used_as_it_stands Sample.view Sample.android
           "3f9a-77c1|b2" Sample.dice); reflexivity.
Defined.

Lemma search_none_step {A : Type} (p : string -> option A) (c : ascii)
    (s : string) :
  Text.search p (String c s) = None <->
  p (String c s) = None /\ Text.search p s = None.
Proof.
  simpl. destruct (p (String c s)); split.
  - discriminate.
  - intros [E _]. discriminate E.
  - intro E. split; [reflexivity|exact E].
  - intros [_ E]. exact E.
Qed.

Lemma includes_false (lit s : string) :
  Text.includes lit s = false <-> Text.search (Text.literal_at lit) s = None.
Proof.
  unfold Text.includes.
  destruct (Text.search (Text.literal_at lit) s) as [[]|]; split;
    intro E; try reflexivity; discriminate E.
Qed.

(** No family token anywhere means no match of the family pattern, and
    the other way round. *)
Lemma no_family_token (ua : string) :
  Text.deviceNameRegex_exec ua = None <->
  Text.includes "iPhone" ua = false
  /\ Text.includes "Android" ua = false
  /\ Text.includes "iPad" ua = false.
Proof.
  rewrite !includes_false. unfold Text.deviceNameRegex_exec.
  assert (At : forall t,
             Text.deviceNameRegex_at t = None <->
             Text.literal_at "iPhone" t = None
             /\ Text.literal_at "Android" t = None
             /\ Text.literal_at "iPad" t = None).
  { intro t. unfold Text.deviceNameRegex_at, Text.literal_at.
    destruct (String.prefix "iPhone" t); destruct (String.prefix "Android" t);
      destruct (String.prefix "iPad" t); split;
      try (intros (A & B & C)); try intro A;
      try discriminate; repeat split; reflexivity. }
  induction ua as [|c ua IH].
  - simpl. split; [intros _; repeat split|reflexivity].
  - rewrite !search_none_step, IH, At. tauto.
Qed.

(** X20: the device name is one of four.  With the marker in the user
    agent, [checkForMobileApp] appends the four mobile parameters in
    their order, [:use_rt=y] and [:client_id=TableauVizLWC] first; the
    device name is ["SFMobileApp"], or that followed by [_iPhone],
    [_Android] or [_iPad], and it is the plain ["SFMobileApp"] exactly
    when none of these three tokens occurs in the user agent, in this
    very spelling. *)
Theorem device_name_is_one_of_four (u : Url.t) (ua : string) (e : Entropy) :
  Text.includes "SalesforceMobileSDK" ua = true ->
  exists id name,
    Url.searchParams (fst (checkForMobileApp u ua e))
    = (Url.searchParams u
       ++ [(":use_rt", "y"); (":client_id", "TableauVizLWC");
           (":device_id", id); (":device_name", name)])%list
    /\ In name device_names
    /\ (name = "SFMobileApp" <->
        Text.includes "iPhone" ua = false
        /\ Text.includes "Android" ua = false
        /\ Text.includes "iPad" ua = false).
Proof.
  intro Marker. unfold checkForMobileApp.
  change (Text.mobileRegex_test ua)
    with (Text.includes "SalesforceMobileSDK" ua).
  rewrite Marker. simpl negb. cbv iota.
  destruct (match Text.deviceIdRegex_exec ua with
            | Some group1 => (group1, e)
            | None => generateRandomDeviceId e
            end) as [deviceId e'].
  destruct (Text.deviceNameRegex_exec ua) as [family|] eqn:N.
  - destruct (search_sound _ _ _ N) as (pre & t & _ & At).
    unfold Text.deviceNameRegex_at in At.
    exists deviceId, ("SFMobileApp_" ++ family)%string.
    split; [simpl; rewrite <- !app_assoc; reflexivity|].
    split.
    + destruct (String.prefix "iPhone" t);
        [injection At as <-; simpl; tauto|].
      destruct (String.prefix "Android" t);
        [injection At as <-; simpl; tauto|].
      destruct (String.prefix "iPad" t);
        [injection At as <-; simpl; tauto|discriminate At].
    + rewrite <- no_family_token, N. split; intro E; discriminate E.
  - exists deviceId, "SFMobileApp".
    split; [simpl; rewrite <- !app_assoc; reflexivity|].
    split; [simpl; tauto|].
    rewrite <- no_family_token, N. split; reflexivity.
Qed.

Lemma device_name_is_one_of_four_witness :
  exists id name,
    Url.searchParams (fst (checkForMobileApp Sample.view Sample.android Sample.dice))
    = (Url.searchParams Sample.view
       ++ [(":use_rt", "y"); (":client_id", "TableauVizLWC");
           (":device_id", id); (":device_name", name)])%list
    /\ In name device_names
    /\ (name = "SFMobileApp" <->
        Text.includes "iPhone" Sample.android = false
        /\ Text.includes "Android" Sample.android = false
        /\ Text.includes "iPad" Sample.android = false).
Proof.
  apply (device_name_is_one_of_four Sample.view Sample.android Sample.dice).
  reflexivity.
Defined.

Lemma getRandomSymbol_draws (c : ascii) (e : Entropy) :
  Math_random (snd (getRandomSymbol (String c "") e)) = Math_random e
  /\ crypto_byte (snd (getRandomSymbol (String c "") e)) = crypto_byte e
  /\ Math_random_calls (snd (getRandomSymbol (String c "") e))
     = ((if Ascii.eqb c "y" then 1 else 0) + Math_random_calls e)%nat
  /\ crypto_calls (snd (getRandomSymbol (String c "") e))
     = ((if Ascii.eqb c "y" then 0 else 1) + crypto_calls e)%nat.
Proof.
  unfold getRandomSymbol.
  replace (String c "" =? "y")%string with (Ascii.eqb c "y")
    by (simpl; destruct (Ascii.eqb c "y"); reflexivity).
  destruct (Ascii.eqb c "y"); simpl; repeat split; reflexivity.
Qed.

(** What filling in a pattern costs: one [Math.random] for each [y],
    one random byte for each [x]. *)
Lemma replace_xy_draws (pattern : string) :
  forall e,
    Math_random (snd (replace_xy getRandomSymbol pattern e)) = Math_random e
    /\ crypto_byte (snd (replace_xy getRandomSymbol pattern e)) = crypto_byte e
    /\ Math_random_calls (snd (replace_xy getRandomSymbol pattern e))
       = (occurrences "y" pattern + Math_random_calls e)%nat
    /\ crypto_calls (snd (replace_xy getRandomSymbol pattern e))
       = (occurrences "x" pattern + crypto_calls e)%nat.
Proof.
  induction pattern as [|c pattern IH]; intro e; [repeat split; reflexivity|].
  simpl replace_xy. simpl occurrences.
  destruct (Ascii.eqb_spec c "x") as [X|NX].
  - subst c. simpl orb.
    destruct (getRandomSymbol_draws "x" e) as (M & B & MC & CC).
    destruct (getRandomSymbol "x" e) as [v e1]. simpl in M, B, MC, CC.
    destruct (IH e1) as (M' & B' & MC' & CC').
    destruct (replace_xy getRandomSymbol pattern e1) as [out e2].
    simpl in *. rewrite M', B', MC', CC', M, B, MC, CC.
    repeat split; lia.
  - destruct (Ascii.eqb_spec c "y") as [Y|NY].
    + subst c. simpl orb.
      destruct (getRandomSymbol_draws "y" e) as (M & B & MC & CC).
      destruct (getRandomSymbol "y" e) as [v e1]. simpl in M, B, MC, CC.
      destruct (IH e1) as (M' & B' & MC' & CC').
      destruct (replace_xy getRandomSymbol pattern e1) as [out e2].
      simpl in *. rewrite M', B', MC', CC', M, B, MC, CC.
      repeat split; lia.
    + simpl orb. destruct (IH e) as (M' & B' & MC' & CC').
      destruct (replace_xy getRandomSymbol pattern e) as [out e2].
      simpl in *. repeat split; assumption.
Qed.

(** X21: randomness is drawn only for a missing device id.
    [checkForMobileApp] leaves the random source alone on a user agent
    without the marker and on one that reports a [uid_]; otherwise it
    draws one [Math.random] value and thirty random bytes for the id it
    generates.  It never changes what the sources are going to
    return. *)
Theorem randomness_only_for_a_missing_uid (u : Url.t) (ua : string)
    (e : Entropy) :
  Math_random (snd (checkForMobileApp u ua e)) = Math_random e
  /\ crypto_byte (snd (checkForMobileApp u ua e)) = crypto_byte e
  /\ (Math_random_calls (snd (checkForMobileApp u ua e)),
      crypto_calls (snd (checkForMobileApp u ua e)))
     = if Text.includes "SalesforceMobileSDK" ua
          && match Text.deviceIdRegex_exec ua with
             | None => true
             | Some _ => false
             end
       then (1 + Math_random_calls e, 30 + crypto_calls e)%nat
       else (Math_random_calls e, crypto_calls e).
Proof.
  unfold checkForMobileApp.
  change (Text.mobileRegex_test ua)
    with (Text.includes "SalesforceMobileSDK" ua).
  destruct (Text.includes "SalesforceMobileSDK" ua); simpl negb; cbv iota;
    [|repeat split; reflexivity].
  destruct (Text.deviceIdRegex_exec ua) as [id|];
    [repeat split; reflexivity|].
  unfold generateRandomDeviceId.
  destruct (replace_xy_draws "xxxxxxxx-xxxx-4xxx-yxxx-xxxxxxxxxxxx" e)
    as (M & B & MC & CC).
  destruct (replace_xy getRandomSymbol
              "xxxxxxxx-xxxx-4xxx-yxxx-xxxxxxxxxxxx" e) as [deviceId e'].
  simpl snd in *. rewrite M, B, MC, CC. repeat split; reflexivity.
Qed.

Lemma hex_digit_uid_char (c : ascii) :
  hex_digit c = true -> Text.uid_char c = true.
Proof.
  destruct c as [[] [] [] [] [] [] [] []]; intro H;
    try reflexivity; discriminate H.
Qed.

Lemma y_digit_uid_char (c : ascii) :
  y_digit c = true -> Text.uid_char c = true.
Proof.
  destruct c as [[] [] [] [] [] [] [] []]; intro H;
    try reflexivity; discriminate H.
Qed.

(** An identifier of a shape whose fixed characters the device-id
    pattern accepts is made of such characters throughout. *)
Lemma has_shape_uid_chars (pattern s : string) :
  all_chars Text.uid_char pattern = true ->
  has_shape pattern s = true ->
  all_chars Text.uid_char s = true /\ String.length s = String.length pattern.
Proof.
  revert s. induction pattern as [|p pattern IH]; intros s A H.
  - destruct s; [split; reflexivity|discriminate H].
  - destruct s as [|c s]; [discriminate H|].
    simpl in A, H. apply andb_prop in A. destruct A as [Pc A].
    apply andb_prop in H. destruct H as [Sc H].
    destruct (IH s A H) as (K & L). simpl. rewrite K, L.
    split; [|reflexivity]. rewrite andb_true_r.
    unfold shape_char in Sc.
    destruct (Ascii.eqb p "x"); [exact (hex_digit_uid_char c Sc)|].
    destruct (Ascii.eqb p "y"); [exact (y_digit_uid_char c Sc)|].
    apply Ascii.eqb_eq in Sc. subst c. exact Pc.
Qed.

Lemma uuid_shape_uid_chars (id : string) :
  uuid_shape id = true ->
  String.length id = 36%nat /\ all_chars Text.uid_char id = true.
Proof.
  unfold uuid_shape. intro S.
  assert (PA : all_chars Text.uid_char "xxxxxxxx-xxxx-4xxx-yxxx-xxxxxxxxxxxx"
               = true) by (vm_compute; reflexivity).
  destruct (has_shape_uid_chars _ id PA S) as (A & L).
  split; [exact L|exact A].
Qed.

(** A run of pattern characters behind [uid_] is what the pattern
    captures. *)
Lemma token_reads_back (id post : string) :
  id <> "" ->
  all_chars Text.uid_char id = true ->
  ends_token post = true ->
  Text.deviceIdRegex_exec ("uid_" ++ id ++ post) = Some id.
Proof.
  intros N A E.
  unfold Text.deviceIdRegex_exec. apply search_here.
  unfold Text.deviceIdRegex_at.
  rewrite (prefix_append "uid_" (id ++ post)).
  change (Text.drop 4 ("uid_" ++ id ++ post)) with (id ++ post)%string.
  rewrite (takeWhile_token _ _ _ A (proj1 (ends_token_spec post) E)).
  destruct id; [contradiction|reflexivity].
Qed.

(** X22: a generated id is a device id like any other.  It is thirty-six
    characters long, all of them characters the pattern [uid_([\w|-]+)]
    accepts, so a user agent that reported it as [uid_<id>], followed by
    the end or by a character outside the pattern, would have exactly
    it extracted. *)
Theorem generated_id_reads_back (e : Entropy) (post : string) :
  unit_interval e ->
  ends_token post = true ->
  String.length (fst (generateRandomDeviceId e)) = 36%nat
  /\ all_chars Text.uid_char (fst (generateRandomDeviceId e)) = true
  /\ Text.deviceIdRegex_exec
       ("uid_" ++ fst (generateRandomDeviceId e) ++ post)
     = Some (fst (generateRandomDeviceId e)).
Proof.
  intros U E.
  destruct (uuid_shape_uid_chars _ (generateRandomDeviceId_shape e U))
    as (L & A).
  split; [exact L|]. split; [exact A|].
  apply token_reads_back; [|exact A|exact E].
  intro Z. rewrite Z in L. discriminate L.
Qed.

Lemma generated_id_reads_back_witness :
  String.length (fst (generateRandomDeviceId Sample.dice)) = 36%nat
  /\ all_chars Text.uid_char (fst (generateRandomDeviceId Sample.dice)) = true
  /\ Text.deviceIdRegex_exec
       ("uid_" ++ fst (generateRandomDeviceId Sample.dice) ++ " ftr_")
     = Some "b05af49e-38d2-47c1-86b0-5af49e38d27c".
Proof.
  apply (generated_id_reads_back Sample.dice " ftr_");
    [exact dice_unit_interval|reflexivity].
Defined.

(* ================================================================= *)
(** ** Embed URLs as text *)

Lemma append_with_params (n v : string) (u : Url.t) :
  Url.append n v u = with_params [(n, v)] u.
Proof.
  unfold Url.append, with_params. cbv zeta.
  destruct (String.eqb_spec
              (Url.urlencoded (Url.searchParams u ++ [(n, v)])) "") as [E|_];
    [|reflexivity].
  exfalso. revert E. apply urlencoded_not_empty.
  destruct (Url.searchParams u); discriminate.
Qed.

Lemma with_params_app (a b : list (string * string)) (u : Url.t) :
  with_params b (with_params a u) = with_params (a ++ b) u.
Proof.
  destruct a as [|p a]; [reflexivity|].
  destruct b as [|q b]; [rewrite app_nil_r; reflexivity|].
  simpl. rewrite <- app_assoc. reflexivity.
Qed.

Lemma toString_with_params (extra : list (string * string)) (u : Url.t) :
  extra <> [] ->
  Url.toString (with_params extra u) = url_text u (Url.searchParams u ++ extra).
Proof.
  destruct extra as [|p extra]; [intro N; contradiction|reflexivity].
Qed.

Lemma searchParams_with_params (extra : list (string * string)) (u : Url.t) :
  Url.searchParams (with_params extra u) = (Url.searchParams u ++ extra)%list.
Proof.
  destruct extra; [rewrite app_nil_r; reflexivity|reflexivity].
Qed.

(** [setVizFilters] as a whole: the URL it is given, with the
    in-context and the advanced parameter behind its own. *)
Lemma setVizFilters_with_params (c : Component) (u : Url.t) :
  setVizFilters c u
  = with_params (in_context_params c ++ advanced_params c) u.
Proof.
  unfold setVizFilters, in_context_params, advanced_params.
  destruct (filterOnRecordId (api c)) as [| |[|]| | |]; simpl;
    destruct (JS.truthy (objectApiName (api c)));
    destruct (JS.truthy (tabAdvancedFilter (api c)));
    destruct (JS.truthy (advancedFilterValue c)); simpl;
    rewrite ?append_with_params, ?with_params_app; reflexivity.
Qed.

(** [checkForMobileApp] as a whole. *)
Lemma checkForMobileApp_with_params (u : Url.t) (ua : string) (e : Entropy) :
  exists mobile,
    fst (checkForMobileApp u ua e) = with_params mobile u
    /\ ((Text.includes "SalesforceMobileSDK" ua = false /\ mobile = [])
        \/ (Text.includes "SalesforceMobileSDK" ua = true
            /\ map fst mobile = mobile_names)).
Proof.
  unfold checkForMobileApp.
  change (Text.mobileRegex_test ua)
    with (Text.includes "SalesforceMobileSDK" ua).
  destruct (Text.includes "SalesforceMobileSDK" ua); simpl negb; cbv iota.
  - destruct (match Text.deviceIdRegex_exec ua with
              | Some group1 => (group1, e)
              | None => generateRandomDeviceId e
              end) as [deviceId e']. simpl fst.
    eexists. split.
    + rewrite !append_with_params, !with_params_app. reflexivity.
    + right. split; reflexivity.
  - exists []. split; [reflexivity|]. left. split; reflexivity.
Qed.

(** The text of the URL that [renderViz] builds from the parsed link
    [u0]. *)
Lemma built_url_text (c : Component) (u0 : Url.t) (div : Container)
    (ua : string) (e : Entropy) :
  exists mobile,
    Url.toString
      (fst (checkForMobileApp
              (setVizFilters c
                 (Url.append (fst (size_param c div))
                    (snd (size_param c div)) u0)) ua e))
    = url_text u0
        (Url.searchParams u0
         ++ size_param c div
            :: in_context_params c ++ advanced_params c ++ mobile)
    /\ ((Text.includes "SalesforceMobileSDK" ua = false /\ mobile = [])
        \/ (Text.includes "SalesforceMobileSDK" ua = true
            /\ map fst mobile = mobile_names)).
Proof.
  destruct (checkForMobileApp_with_params
              (setVizFilters c
                 (Url.append (fst (size_param c div))
                    (snd (size_param c div)) u0)) ua e) as (mobile & W & K).
  exists mobile. split; [|exact K].
  rewrite W, setVizFilters_with_params, append_with_params, !with_params_app.
  rewrite toString_with_params by discriminate.
  simpl. rewrite <- !app_assoc. reflexivity.
Qed.

(** C2, amended: with both filter fields set, [setVizFilters] appends
    the parameter named by [tabAdvancedFilter] if and only if the
    resolved value is truthy, and then with the string of that value;
    [undefined], [null], the empty string, [0], [NaN] and [false]
    append nothing.  The URL that results is the one given with these
    parameters behind its own, its query string rewritten to match; for
    a truthy value its text is the path, [?], the serialized list that
    ends in the advanced filter, and the fragment. *)
Theorem advanced_filter_appended_iff_truthy (c : Component) (u : Url.t) :
  is_set (tabAdvancedFilter (api c)) ->
  is_set (sfAdvancedFilter (api c)) ->
  Url.searchParams (setVizFilters c u)
  = (Url.searchParams u ++ in_context_params c
     ++ (if JS.truthy (advancedFilterValue c)
         then [(JS.toString (tabAdvancedFilter (api c)),
                JS.toString (advancedFilterValue c))]
         else []))%list
  /\ setVizFilters c u
     = with_params
         (in_context_params c
          ++ (if JS.truthy (advancedFilterValue c)
              then [(JS.toString (tabAdvancedFilter (api c)),
                     JS.toString (advancedFilterValue c))]
              else [])) u
  /\ (JS.truthy (advancedFilterValue c) = false
      \/ Url.toString (setVizFilters c u)
         = url_text u
             (Url.searchParams u ++ in_context_params c
              ++ [(JS.toString (tabAdvancedFilter (api c)),
                   JS.toString (advancedFilterValue c))])).
Proof.
  unfold is_set. intros Tab _.
  assert (A : advanced_params c
              = if JS.truthy (advancedFilterValue c)
                then [(JS.toString (tabAdvancedFilter (api c)),
                       JS.toString (advancedFilterValue c))]
                else []).
  { unfold advanced_params. rewrite Tab. reflexivity. }
  split; [rewrite setVizFilters_params, A; reflexivity|].
  split; [rewrite setVizFilters_with_params, A; reflexivity|].
  rewrite setVizFilters_with_params, A.
  destruct (JS.truthy (advancedFilterValue c)); [right|left; reflexivity].
  apply toString_with_params.
  destruct (in_context_params c); discriminate.
Qed.

Lemma advanced_filter_appended_iff_truthy_witness :
  Url.searchParams
    (setVizFilters
       (set_advancedFilterValue (JS.Str "EMEA")
          (Sample.component Sample.filtered)) Sample.view)
  = [("Region", "EMEA")]
  /\ Url.toString
       (setVizFilters
          (set_advancedFilterValue (JS.Str "EMEA")
             (Sample.component Sample.filtered)) Sample.view)
     = "https://tableau.example.com/views/Backlog/Days?Region=EMEA".
Proof.
  destruct (advanced_filter_appended_iff_truthy
              (set_advancedFilterValue (JS.Str "EMEA")
                 (Sample.component Sample.filtered)) Sample.view)
    as (L & _ & [F|T]); [reflexivity|reflexivity| |].
  - discriminate F.
  - split; [exact L|exact T].
Defined.

(** C10: with [filterOnRecordId === true] and a truthy [objectApiName]
    (a non-empty string, say), an undefined [recordId] is not guarded
    against: the ["{objectApiName} ID"] parameter is appended with the
    text ["undefined"] as its value, and the query string of the URL is
    rewritten to the serialization of the list that holds it, so that
    the text of the URL carries it. *)
Theorem undefined_recordId_is_appended (c : Component) (u : Url.t) :
  filterOnRecordId (api c) = JS.Bool true ->
  JS.truthy (objectApiName (api c)) = true ->
  recordId (api c) = JS.Undefined ->
  Url.searchParams (setVizFilters c u)
  = (Url.searchParams u
     ++ ((JS.toString (objectApiName (api c)) ++ " ID")%string, "undefined")
        :: advanced_params c)%list
  /\ Url.query (setVizFilters c u)
     = Some (Url.urlencoded
               (Url.searchParams u
                ++ ((JS.toString (objectApiName (api c)) ++ " ID")%string,
                    "undefined")
                   :: advanced_params c))
  /\ Url.toString (setVizFilters c u)
     = url_text u
         (Url.searchParams u
          ++ ((JS.toString (objectApiName (api c)) ++ " ID")%string,
              "undefined")
             :: advanced_params c).
Proof.
  intros F O R.
  assert (I : in_context_params c
              = [((JS.toString (objectApiName (api c)) ++ " ID")%string,
                  "undefined")]).
  { unfold in_context_params. rewrite F, O, R. reflexivity. }
  split; [rewrite setVizFilters_params, I; reflexivity|].
  rewrite setVizFilters_with_params, I.
  split; [reflexivity|]. apply toString_with_params. discriminate.
Qed.

Lemma undefined_recordId_is_appended_witness :
  Url.searchParams (setVizFilters (Sample.component Sample.no_record) Sample.view)
  = [("Account ID", "undefined")]
  /\ Url.query (setVizFilters (Sample.component Sample.no_record) Sample.view)
     = Some "Account+ID=undefined"
  /\ Url.toString (setVizFilters (Sample.component Sample.no_record) Sample.view)
     = "https://tableau.example.com/views/Backlog/Days?Account+ID=undefined".
Proof.
  apply (undefined_recordId_is_appended
           (Sample.component Sample.no_record) Sample.view);
    reflexivity.
Defined.

(** X5: the text of every embed URL handed to the constructor is that
    of the configured link up to its path, [?], the serialization of a
    parameter list in a fixed order, and the fragment of the link.  The
    list holds the parameters of the link, the size, the in-context
    filter, the advanced filter, and then the four mobile parameters
    when the user agent carries the mobile marker and none when it does
    not. *)
Theorem parameters_come_in_order `{P : Platform} (st : St) (call : VizCall) :
  vizCalls (host (snd (renderViz st))) = (vizCalls (host st) ++ [call])%list ->
  exists u0 div mobile,
    URL_new (JS.toString (vizUrl (api (this st)))) = JS.Normal u0
    /\ placeholder (host st) = Some div
    /\ call_url call
       = url_text u0
           (Url.searchParams u0
            ++ size_param (this st) div
               :: in_context_params (this st) ++ advanced_params (this st)
               ++ mobile)
    /\ ((Text.includes "SalesforceMobileSDK" (userAgent (host st)) = false
         /\ mobile = [])
        \/ (Text.includes "SalesforceMobileSDK" (userAgent (host st)) = true
            /\ map fst mobile = mobile_names)).
Proof.
  intro C.
  assert (N : vizCalls (host (snd (renderViz st))) <> vizCalls (host st)).
  { rewrite C. apply extension_differs. }
  destruct (renderViz_changes_calls st N) as (R & div & D).
  destruct (renderViz_ready st div R D) as (u0 & u & e & U & M & C' & _ & _).
  rewrite C' in C. apply app_inv_head in C. injection C as <-.
  destruct (built_url_text (this st) u0 div (userAgent (host st))
              (entropy (host st))) as (mobile & T & K).
  rewrite M in T. simpl fst in T.
  exists u0, div, mobile.
  split; [exact U|]. split; [exact D|]. split; [exact T|exact K].
Qed.

Lemma parameters_come_in_order_witness :
  exists u0 div mobile,
    URL_new (JS.toString (vizUrl Sample.config)) = JS.Normal u0
    /\ placeholder (host (Sample.loaded Sample.config Sample.iphone)) = Some div
    /\ "https://tableau.example.com/views/Backlog/Days?%3Asize=800%2C600&Account+ID=001x&%3Ause_rt=y&%3Aclient_id=TableauVizLWC&%3Adevice_id=b05af49e-38d2-47c1-86b0-5af49e38d27c&%3Adevice_name=SFMobileApp_iPhone"
       = url_text u0
           (Url.searchParams u0
            ++ size_param (this (Sample.loaded Sample.config Sample.iphone)) div
               :: [("Account ID", "001x")] ++ [] ++ mobile)
    /\ ((Text.includes "SalesforceMobileSDK" Sample.iphone = false
         /\ mobile = [])
        \/ (Text.includes "SalesforceMobileSDK" Sample.iphone = true
            /\ map fst mobile = mobile_names)).
Proof.
  apply (parameters_come_in_order (Sample.loaded Sample.config Sample.iphone)
           {| call_container := {| style_height := "600px"; offsetWidth := 800 |};
              call_url := "https://tableau.example.com/views/Backlog/Days?%3Asize=800%2C600&Account+ID=001x&%3Ause_rt=y&%3Aclient_id=TableauVizLWC&%3Adevice_id=b05af49e-38d2-47c1-86b0-5af49e38d27c&%3Adevice_name=SFMobileApp_iPhone";
              call_options := derived_options (Sample.component Sample.config) |}).
  reflexivity.
Defined.

(** X14: a record whose field value is defined is rendered with it.
    Whenever the delivery of such a record constructs a viz, the text
    of the embed URL is that of the configured link up to its path,
    [?], the serialization of the parameter list, and the fragment; the
    list holds, between the in-context filter and the mobile
    parameters, the advanced filter with the string of the value if the
    value is truthy, and no advanced filter at all if it is a defined
    but falsy one ([0], [false], [null], the empty string): such a
    record shows the view unfiltered. *)
Theorem resolved_value_reaches_the_url `{P : Platform} (st : St)
    (error : option WireError) (d : RecordData) (call : VizCall) :
  is_set (sfAdvancedFilter (api (this st))) ->
  getFieldValue d (sfAdvancedFilter (api (this st))) <> JS.Undefined ->
  vizCalls (host (snd (getRecord error (Some d) st)))
  = (vizCalls (host st) ++ [call])%list ->
  exists u0 div mobile,
    URL_new (JS.toString (vizUrl (api (this st)))) = JS.Normal u0
    /\ placeholder (host st) = Some div
    /\ call_url call
       = url_text u0
           (Url.searchParams u0
            ++ size_param (this st) div
               :: in_context_params (this st)
               ++ (if JS.truthy
                        (getFieldValue d (sfAdvancedFilter (api (this st))))
                   then [(JS.toString (tabAdvancedFilter (api (this st))),
                          JS.toString
                            (getFieldValue d
                               (sfAdvancedFilter (api (this st)))))]
                   else [])
               ++ mobile)
    /\ ((Text.includes "SalesforceMobileSDK" (userAgent (host st)) = false
         /\ mobile = [])
        \/ (Text.includes "SalesforceMobileSDK" (userAgent (host st)) = true
            /\ map fst mobile = mobile_names)).
Proof.
  unfold is_set. intros S D C.
  set (v := getFieldValue d (sfAdvancedFilter (api (this st)))) in *.
  assert (G : getRecord error (Some d) st
              = renderViz (with_this (set_advancedFilterValue v (this st)) st)).
  { unfold getRecord. cbn [advancedFilterValue set_advancedFilterValue].
    fold v. destruct (JS.strict_equal v JS.Undefined) eqn:E; [|reflexivity].
    apply strict_equal_undefined in E. contradiction. }
  rewrite G in C.
  change (vizCalls (host st))
    with (vizCalls (host (with_this (set_advancedFilterValue v (this st)) st)))
    in C.
  assert (N : vizCalls
                (host (snd (renderViz
                              (with_this (set_advancedFilterValue v (this st)) st))))
              <> vizCalls
                   (host (with_this (set_advancedFilterValue v (this st)) st))).
  { rewrite C. apply extension_differs. }
  destruct (renderViz_changes_calls _ N) as (R & div & D').
  destruct (ready_inv _ R) as (V & _).
  pose proof (accepted_pair _ V) as T. simpl in T. rewrite S in T.
  destruct (renderViz_ready _ div R D') as (u0 & u & e & U & M & C' & _ & _).
  rewrite C' in C. apply app_inv_head in C. injection C as <-.
  destruct (built_url_text (set_advancedFilterValue v (this st)) u0 div
              (userAgent (host st)) (entropy (host st))) as (mobile & X & K).
  simpl in M. simpl in X. rewrite M in X. simpl fst in X.
  exists u0, div, mobile.
  split; [exact U|]. split; [exact D'|]. split; [|exact K].
  simpl call_url. rewrite X.
  unfold advanced_params. simpl. rewrite T. reflexivity.
Qed.

Lemma resolved_value_reaches_the_url_witness :
  exists u0 div mobile,
    URL_new (JS.toString (vizUrl Sample.filtered)) = JS.Normal u0
    /\ placeholder (host (Sample.loaded Sample.filtered Sample.desktop))
       = Some div
    /\ "https://tableau.example.com/views/Backlog/Days?%3Asize=800%2C600"
       = url_text u0
           (Url.searchParams u0
            ++ size_param (this (Sample.loaded Sample.filtered Sample.desktop)) div
               :: in_context_params
                    (this (Sample.loaded Sample.filtered Sample.desktop))
               ++ (if JS.truthy (JS.Number 0)
                   then [("Region", JS.toString (JS.Number 0))]
                   else [])
               ++ mobile)
    /\ ((Text.includes "SalesforceMobileSDK" Sample.desktop = false
         /\ mobile = [])
        \/ (Text.includes "SalesforceMobileSDK" Sample.desktop = true
            /\ map fst mobile = mobile_names)).
Proof.
  apply (@resolved_value_reaches_the_url Sample.platform
           (Sample.loaded Sample.filtered Sample.desktop) None
           [("Account.Region__c", JS.Number 0)]
           {| call_container := {| style_height := "600px"; offsetWidth := 800 |};
              call_url := "https://tableau.example.com/views/Backlog/Days?%3Asize=800%2C600";
              call_options := VizOptions.Make true false "600px" "100%" |}).
  - reflexivity.
  - simpl. discriminate.
  - reflexivity.
Defined.

(* ================================================================= *)
(** ** The leftmost family token *)

Lemma family_token_here (token post : string) :
  In token family_tokens ->
  Text.deviceNameRegex_at (token ++ post) = Some token.
Proof.
  intros [<-|[<-|[<-|[]]]]; unfold Text.deviceNameRegex_at.
  - rewrite (prefix_append "iPhone" post). reflexivity.
  - change (String.prefix "iPhone" ("Android" ++ post)) with false.
    rewrite (prefix_append "Android" post). reflexivity.
  - change (String.prefix "iPhone" ("iPad" ++ post)) with false.
    change (String.prefix "Android" ("iPad" ++ post)) with false.
    rewrite (prefix_append "iPad" post). reflexivity.
Qed.

Lemma search_skip {A : Type} (p : string -> option A) (c : ascii) (s : string) :
  p (String c s) = None -> Text.search p (String c s) = Text.search p s.
Proof. intro E. simpl. rewrite E. reflexivity. Qed.

(** The family pattern finds the token before which no token begins. *)
Lemma leftmost_token_is_found (pre token post : string) :
  In token family_tokens ->
  clear_before (String.length pre) (pre ++ token ++ post) = true ->
  Text.deviceNameRegex_exec (pre ++ token ++ post) = Some token.
Proof.
  intros T. unfold Text.deviceNameRegex_exec.
  induction pre as [|c pre IH]; intro C.
  - apply search_here. exact (family_token_here token post T).
  - change (String c pre ++ token ++ post)%string
      with (String c (pre ++ token ++ post)) in *.
    change (clear_before (String.length (String c pre))
              (String c (pre ++ token ++ post)))
      with (negb (String.prefix "iPhone" (String c (pre ++ token ++ post)))
            && negb (String.prefix "Android" (String c (pre ++ token ++ post)))
            && negb (String.prefix "iPad" (String c (pre ++ token ++ post)))
            && clear_before (String.length pre) (pre ++ token ++ post)) in C.
    apply andb_prop in C. destruct C as [C Rest].
    apply andb_prop in C. destruct C as [C C3].
    apply andb_prop in C. destruct C as [C1 C2].
    apply negb_true_iff in C1, C2, C3.
    rewrite search_skip; [exact (IH Rest)|].
    unfold Text.deviceNameRegex_at. rewrite C1, C2, C3. reflexivity.
Qed.

(** C3, amended: the device name follows the leftmost family token.
    For a user agent that carries the marker SalesforceMobileSDK and no
    [uid_], and in which [token], one of iPhone, Android, iPad, stands
    behind a text [pre] within which no family token begins,
    [checkForMobileApp] appends the device name ["SFMobileApp_"]
    followed by that token, so ["SFMobileApp_iPhone"] when the leftmost
    token is iPhone, and a generated device id of the shape
    [xxxxxxxx-xxxx-4xxx-yxxx-xxxxxxxxxxxx]: hexadecimal digits for [x],
    the 4 in its place, one of 8, 9, a, b for [y].  The query string of
    the URL is rewritten to hold them. *)
Theorem leftmost_token_names_the_device (u : Url.t)
    (pre token post : string) (e : Entropy) :
  Text.includes "SalesforceMobileSDK" (pre ++ token ++ post) = true ->
  Text.includes "uid_" (pre ++ token ++ post) = false ->
  In token family_tokens ->
  clear_before (String.length pre) (pre ++ token ++ post) = true ->
  unit_interval e ->
  uuid_shape (fst (generateRandomDeviceId e)) = true
  /\ Url.searchParams (fst (checkForMobileApp u (pre ++ token ++ post) e))
     = (Url.searchParams u
        ++ [(":use_rt", "y"); (":client_id", "TableauVizLWC");
            (":device_id", fst (generateRandomDeviceId e));
            (":device_name", ("SFMobileApp_" ++ token)%string)])%list
  /\ query_in_step (fst (checkForMobileApp u (pre ++ token ++ post) e)).
Proof.
  intros Marker NoUid Token Clear U.
  split; [exact (generateRandomDeviceId_shape e U)|].
  unfold checkForMobileApp.
  unfold Text.includes in Marker. unfold Text.mobileRegex_test.
  destruct (Text.search (Text.literal_at "SalesforceMobileSDK")
              (pre ++ token ++ post)); [|discriminate Marker].
  rewrite (no_uid_no_match _ NoUid).
  rewrite (leftmost_token_is_found pre token post Token Clear).
  simpl negb. cbv iota.
  destruct (generateRandomDeviceId e) as [deviceId e']. simpl fst.
  split; [|apply append_in_step].
  rewrite !searchParams_append, <- !app_assoc. reflexivity.
Qed.

Lemma leftmost_token_names_the_device_witness :
  uuid_shape "b05af49e-38d2-47c1-86b0-5af49e38d27c" = true
  /\ Url.searchParams (fst (checkForMobileApp Sample.view Sample.iphone Sample.dice))
     = [(":use_rt", "y"); (":client_id", "TableauVizLWC");
        (":device_id", "b05af49e-38d2-47c1-86b0-5af49e38d27c");
        (":device_name", "SFMobileApp_iPhone")]
  /\ query_in_step (fst (checkForMobileApp Sample.view Sample.iphone Sample.dice)).
Proof.
  apply (leftmost_token_names_the_device Sample.view
           "SalesforceMobileSDK/9.1.0 iOS/15.4 (" "iPhone"
           ") Chatter/236.030 Hybrid" Sample.dice).
  - reflexivity.
  - reflexivity.
  - simpl. left. reflexivity.
  - vm_compute. reflexivity.
  - exact dice_unit_interval.
Defined.

(* ================================================================= *)
(** ** Late completions on a detached component *)

Lemma renderViz_isConnected `{P : Platform} (st : St) :
  isConnected (host (snd (renderViz st))) = isConnected (host st).
Proof.
  destruct (ready (this st)) eqn:R.
  - destruct (placeholder (host st)) as [div|] eqn:D.
    + destruct (renderViz_ready st div R D) as (u0 & u & e & U & M & _).
      rewrite (renderViz_ready_eq st div u0 u e R D U M).
      destruct (tableau_Viz _ _); reflexivity.
    + rewrite (renderViz_no_placeholder st R D). reflexivity.
  - rewrite (renderViz_not_ready st R). reflexivity.
Qed.

(** C8, amended: the class keeps no liveness flag and checks none.  On
    a component that has been taken out of the document, the late
    completion of the script load sets [isLibLoaded] and runs
    [renderViz]: unless a Ready check fails or the placeholder is gone,
    the placeholder is resized and the viz constructor evaluated with
    it; nothing re-attaches the element.  A late record is stored in
    [advancedFilterValue]; an undefined field value records the error
    message, any other one runs [renderViz]; a late wire error records
    its message. *)
Theorem late_completions_act_on_a_detached_component `{P : Platform}
    (st : St) :
  isConnected (host st) = false ->
  isLibLoaded (this (snd (connectedCallback_resume st))) = true
  /\ isConnected (host (snd (connectedCallback_resume st))) = false
  /\ (ready (set_isLibLoaded true (this st)) = false
      \/ placeholder (host st) = None
      \/ exists div call,
           placeholder (host st) = Some div
           /\ vizCalls (host (snd (connectedCallback_resume st)))
              = (vizCalls (host st) ++ [call])%list
           /\ call_container call = resized (this st) div
           /\ placeholder (host (snd (connectedCallback_resume st)))
              = Some (resized (this st) div))
  /\ (forall error d,
        advancedFilterValue (this (snd (getRecord error (Some d) st)))
        = getFieldValue d (sfAdvancedFilter (api (this st)))
        /\ ((getFieldValue d (sfAdvancedFilter (api (this st))) = JS.Undefined
             /\ errorMessage (this (snd (getRecord error (Some d) st)))
                = JS.Str ("Failed to retrieve value for field "
                          ++ JS.toString (sfAdvancedFilter (api (this st)))))
            \/ (getFieldValue d (sfAdvancedFilter (api (this st)))
                <> JS.Undefined
                /\ getRecord error (Some d) st
                   = renderViz
                       (with_this
                          (set_advancedFilterValue
                             (getFieldValue d
                                (sfAdvancedFilter (api (this st))))
                             (this st)) st))))
  /\ (forall e,
        errorMessage (this (snd (getRecord (Some e) None st)))
        = JS.Str ("Failed to retrieve record data: "
                  ++ String.concat "," (reduceErrors e))).
Proof.
  intro Off.
  split.
  { unfold connectedCallback_resume. rewrite renderViz_isLibLoaded. reflexivity. }
  split.
  { unfold connectedCallback_resume. rewrite renderViz_isConnected. exact Off. }
  split.
  { unfold connectedCallback_resume.
    set (st1 := with_this (set_isLibLoaded true (this st)) st).
    destruct (ready (set_isLibLoaded true (this st))) eqn:R; [|left; reflexivity].
    right. destruct (placeholder (host st)) as [div|] eqn:D; [|left; reflexivity].
    right.
    destruct (renderViz_ready st1 div R D) as (u0 & u & e & U & M & C & _).
    exists div. eexists. split; [reflexivity|]. split; [exact C|].
    split; [reflexivity|].
    rewrite (renderViz_ready_eq st1 div u0 u e R D U M).
    destruct (tableau_Viz _ _); reflexivity. }
  split.
  - intros error d. unfold getRecord.
    cbn [advancedFilterValue set_advancedFilterValue].
    destruct (JS.strict_equal
                (getFieldValue d (sfAdvancedFilter (api (this st))))
                JS.Undefined) eqn:E.
    + apply strict_equal_undefined in E.
      split; [reflexivity|]. left. split; [exact E|reflexivity].
    + split.
      * match goal with |- context [renderViz ?s] =>
          destruct (renderViz_this_frame s) as (_ & _ & _ & F) end.
        rewrite F. reflexivity.
      * right. split; [|reflexivity].
        intro U. rewrite U in E. discriminate E.
  - intro e. reflexivity.
Qed.

Lemma late_completions_act_on_a_detached_component_witness :
  let st := run [Connect; Disconnect]
              (Sample.start Sample.config Sample.desktop) in
  isLibLoaded (this (snd (connectedCallback_resume st))) = true
  /\ isConnected (host (snd (connectedCallback_resume st))) = false
  /\ exists call,
       vizCalls (host (snd (connectedCallback_resume st)))
       = (vizCalls (host st) ++ [call])%list
       /\ call_container call
          = {| style_height := "600px"; offsetWidth := 800 |}.
Proof.
  cbv zeta.
  destruct (late_completions_act_on_a_detached_component
              (run [Connect; Disconnect]
                 (Sample.start Sample.config Sample.desktop)))
    as (L & I & [R|[N|(div & call & D & C & K & _)]] & _); [reflexivity| | |].
  - vm_compute in R. discriminate R.
  - vm_compute in N. discriminate N.
  - split; [exact L|]. split; [exact I|].
    exists call. split; [exact C|].
    rewrite K. vm_compute in D. injection D as <-. reflexivity.
Defined.
